(** * The schema-aware decode pipeline of the MSK consumer Lambda

    A shallow embedding of [cloudformation/lambda/index.py]: the schema
    resolvers [get_avro_schema] and [get_schema_by_name] with their
    process-wide [_schema_cache], the binary decoder wrapper
    [decode_avro_payload] and the orchestrator [deserialize_message].

    Python values are an inductive type, the module-level cache is a [gmap],
    and every function of the module runs in a state-and-exception monad
    whose state also records the requests sent to the Glue registry and the
    lines printed.  The libraries the module calls (json, zlib, fastavro, the
    Glue client) are fields of a [runtime] record over which all theorems
    quantify; base64, UTF-8 validation and UUID formatting are computed. *)

From Stdlib Require Import ZArith NArith Strings.Byte Ascii String List SpecFloat.
From Stdlib Require Import DecimalString.
From stdpp Require Import base option list strings gmap.

Set Warnings "-register-all".
Local Open Scope string_scope.
Local Open Scope list_scope.

(** ** Python values and exceptions *)

(** The values that flow through the pipeline: what [json.loads] and
    fastavro's reader produce, and the mappings the module builds.  A [dict]
    is kept as its items in insertion order. *)
Inductive pyval : Type :=
| VNone
| VBool (b : bool)
| VInt (z : Z)
| VFloat (f : spec_float)
| VStr (s : string)
| VBytes (b : list byte)
| VList (l : list pyval)
| VDict (items : list (string * pyval)).

(** Exception classes that the module tells apart, all below [Exception]. *)
Inductive exn_class : Type :=
| JSONDecodeError
| UnicodeDecodeError
| AttributeError
| IndexError
| ValueError
| LibraryError (name : string).

(** An exception object; [exn_msg] is what [str(e)] gives. *)
Record exn : Type := Exn { exn_kind : exn_class; exn_msg : string }.

(** [bool(v)] *)
Definition py_truthy (v : pyval) : bool :=
  match v with
  | VNone => false
  | VBool b => b
  | VInt z => negb (Z.eqb z 0)
  | VFloat f => match f with S754_zero _ => false | _ => true end
  | VStr s => negb (String.eqb s EmptyString)
  | VBytes b => match b with [] => false | _ => true end
  | VList l => match l with [] => false | _ => true end
  | VDict d => match d with [] => false | _ => true end
  end.

(** [isinstance(v, dict)] *)
Definition is_dict (v : pyval) : bool :=
  match v with VDict _ => true | _ => false end.

(** Item lookup in a dict's items. *)
Fixpoint assoc (k : string) (d : list (string * pyval)) : option pyval :=
  match d with
  | [] => None
  | (k', v) :: d' => if String.eqb k k' then Some v else assoc k d'
  end.

(** [k in v] for a dict [v] *)
Definition dict_contains (k : string) (v : pyval) : bool :=
  match v with
  | VDict d => match assoc k d with Some _ => true | None => false end
  | _ => false
  end.

(** [list(v.keys()) if isinstance(v, dict) else 'non-dict'] *)
Definition dict_keys (v : pyval) : option (list string) :=
  match v with
  | VDict d => Some (map fst d)
  | _ => None
  end.

(** ** The effects of the module *)

(** A request to [glue_client.get_schema_version]. *)
Inductive glue_request : Type :=
| ByVersionId (schema_version_id : string)
| ByName (registry_name schema_name : string).

(** The lines the module prints, one constructor per [print] call. *)
Inductive log_line : Type :=
| LogGlueUnavailable
| LogCachedVersion (schema_version_id : string)
| LogFetchError (schema_version_id : string) (e : exn)
| LogGlueOrRegistryUnavailable
| LogCachedName (schema_name : string)
| LogFetchByNameError (schema_name : string) (e : exn)
| LogAvroDecodeError (e : exn)
| LogDetected (topic : string)
| LogSchemaVersionId (schema_version_id : string)
| LogDecompressed
| LogDecoded (keys : option (list string))
| LogRegistryFailed (e : exn)
| LogAttemptRaw (topic schema_name : string)
| LogRawDecoded (keys : list string)
| LogRawDecodeFailed (reason : pyval).

(** The mutable world of one Lambda process: the module-level
    [_schema_cache], the requests sent to the registry so far and the lines
    printed so far (oldest first). *)
Record state : Type := State {
  _schema_cache : gmap string pyval;
  glue_calls : list glue_request;
  stdout : list log_line
}.

(** How a call ends: with a value, or with an exception in flight. *)
Inductive outcome (A : Type) : Type :=
| Return (a : A)
| Raise (e : exn).
Arguments Return {A} a.
Arguments Raise {A} e.

(** Computations of the module: state passing, with the state kept when an
    exception is raised (Python does not roll anything back). *)
Definition M (A : Type) : Type := state -> outcome A * state.

Definition ret {A} (a : A) : M A := fun st => (Return a, st).

Definition raise {A} (e : exn) : M A := fun st => (Raise e, st).

Definition bind {A B} (m : M A) (k : A -> M B) : M B :=
  fun st =>
    match m st with
    | (Return a, st') => k a st'
    | (Raise e, st') => (Raise e, st')
    end.

(** [try: body except Exception as e: handler] *)
Definition try_except {A} (body : M A) (handler : exn -> M A) : M A :=
  fun st =>
    match body st with
    | (Return a, st') => (Return a, st')
    | (Raise e, st') => handler e st'
    end.

(** The result of a library call enters the computation unchanged. *)
Definition lift {A} (o : outcome A) : M A := fun st => (o, st).

Definition print (l : log_line) : M unit :=
  fun st =>
    (Return tt, State (_schema_cache st) (glue_calls st) (stdout st ++ [l])).

Definition cache_lookup (key : string) : M (option pyval) :=
  fun st => (Return (_schema_cache st !! key), st).

(** [_schema_cache[key] = v] *)
Definition cache_store (key : string) (v : pyval) : M unit :=
  fun st =>
    (Return tt, State (<[key := v]> (_schema_cache st)) (glue_calls st) (stdout st)).

Declare Scope py_scope.
Delimit Scope py_scope with py.
Notation "'let*' x ':=' m 'in' k" := (bind m (fun x => k))
  (at level 10, x name, m at level 100, k at level 200, only parsing) : py_scope.
Notation "m1 ';;;' m2" := (bind m1 (fun _ => m2))
  (at level 100, m2 at level 200, right associativity, only parsing) : py_scope.
Local Open Scope py_scope.

(** ** Computed library functions *)

(** *** base64.b64encode *)

Definition b64_alphabet : list byte :=
  list_byte_of_string
    "ABCDEFGHIJKLMNOPQRSTUVWXYZabcdefghijklmnopqrstuvwxyz0123456789+/".

(** The character of a 6-bit group; [x3d] is the padding character [=]. *)
Definition b64_char (n : N) : byte := nth (N.to_nat n) b64_alphabet x3d.

Fixpoint b64encode (data : list byte) : list byte :=
  match data with
  | [] => []
  | [a] =>
      let x := Byte.to_N a in
      [b64_char (x / 4); b64_char ((x mod 4) * 16); x3d; x3d]
  | [a; b] =>
      let x := Byte.to_N a in
      let y := Byte.to_N b in
      [b64_char (x / 4); b64_char ((x mod 4) * 16 + y / 16);
       b64_char ((y mod 16) * 4); x3d]
  | a :: b :: c :: rest =>
      let x := Byte.to_N a in
      let y := Byte.to_N b in
      let z := Byte.to_N c in
      b64_char (x / 4) :: b64_char ((x mod 4) * 16 + y / 16)
        :: b64_char ((y mod 16) * 4 + z / 64) :: b64_char (z mod 64)
        :: b64encode rest
  end.

(** *** bytes.decode('utf-8') *)

Definition in_range (lo hi : N) (b : byte) : bool :=
  let n := Byte.to_N b in (lo <=? n)%N && (n <=? hi)%N.

(** Well-formed UTF-8 byte sequences (the table of the Unicode standard,
    which the strict codec follows: no overlong forms, no surrogates,
    nothing above U+10FFFF). *)
Fixpoint utf8_valid (l : list byte) : bool :=
  match l with
  | [] => true
  | b0 :: t =>
      if in_range 0x00 0x7F b0 then utf8_valid t
      else if in_range 0xC2 0xDF b0 then
        match t with
        | b1 :: t1 => in_range 0x80 0xBF b1 && utf8_valid t1
        | _ => false
        end
      else if in_range 0xE0 0xEF b0 then
        match t with
        | b1 :: b2 :: t2 =>
            (if in_range 0xE0 0xE0 b0 then in_range 0xA0 0xBF b1
             else if in_range 0xED 0xED b0 then in_range 0x80 0x9F b1
             else in_range 0x80 0xBF b1)
            && in_range 0x80 0xBF b2 && utf8_valid t2
        | _ => false
        end
      else if in_range 0xF0 0xF4 b0 then
        match t with
        | b1 :: b2 :: b3 :: t3 =>
            (if in_range 0xF0 0xF0 b0 then in_range 0x90 0xBF b1
             else if in_range 0xF4 0xF4 b0 then in_range 0x80 0x8F b1
             else in_range 0x80 0xBF b1)
            && in_range 0x80 0xBF b2 && in_range 0x80 0xBF b3 && utf8_valid t3
        | _ => false
        end
      else false
  end.

(** A Python [str] is kept as the bytes of its UTF-8 encoding, so decoding
    validates and keeps the bytes. *)
Definition bytes_decode_utf8 (b : list byte) : outcome string :=
  if utf8_valid b then Return (string_of_list_byte b)
  else Raise (Exn UnicodeDecodeError "'utf-8' codec can't decode bytes").

(** The base64 text of a byte string. *)
Definition b64 (b : list byte) : string := string_of_list_byte (b64encode b).

(** [base64.b64encode(b).decode('utf-8')] *)
Definition b64_text (b : list byte) : M string :=
  lift (bytes_decode_utf8 (b64encode b)).

(** *** uuid.UUID(bytes=...) and its str() *)

Definition hex_digit (n : N) : ascii :=
  match String.get (N.to_nat n) "0123456789abcdef" with
  | Some c => c
  | None => "0"%char
  end.

Definition hex_byte (b : byte) : string :=
  let n := Byte.to_N b in
  String (hex_digit (n / 16)) (String (hex_digit (n mod 16)) EmptyString).

Definition hex_bytes (l : list byte) : string :=
  fold_right (fun b s => hex_byte b +:+ s) EmptyString l.

(** The constructor rejects anything but 16 bytes. *)
Definition uuid_UUID (b : list byte) : outcome (list byte) :=
  if Nat.eqb (length b) 16 then Return b
  else Raise (Exn ValueError "bytes is not a 16-char string").

(** Canonical 8-4-4-4-12 form. *)
Definition uuid_str (u : list byte) : string :=
  hex_bytes (take 4 u) +:+ "-" +:+ hex_bytes (take 2 (drop 4 u)) +:+ "-"
  +:+ hex_bytes (take 2 (drop 6 u)) +:+ "-" +:+ hex_bytes (take 2 (drop 8 u))
  +:+ "-" +:+ hex_bytes (drop 10 u).

(** [b[i]] on bytes *)
Definition py_index (b : list byte) (i : nat) : M byte :=
  match b !! i with
  | Some x => ret x
  | None => raise (Exn IndexError "index out of range")
  end.

(** [b[i:j]] on bytes, for [i <= j] *)
Definition py_slice (b : list byte) (i j : nat) : list byte :=
  take (j - i) (drop i b).

(** [type(v).__name__] *)
Definition py_type_name (v : pyval) : string :=
  match v with
  | VNone => "NoneType"
  | VBool _ => "bool"
  | VInt _ => "int"
  | VFloat _ => "float"
  | VStr _ => "str"
  | VBytes _ => "bytes"
  | VList _ => "list"
  | VDict _ => "dict"
  end.

Definition no_attribute (v : pyval) (attr : string) : exn :=
  Exn AttributeError
      ("'" +:+ py_type_name v +:+ "' object has no attribute '" +:+ attr +:+ "'").

(** [v.get(k, default)]: only a dict has the method. *)
Definition py_get (v : pyval) (k : string) (default : pyval) : outcome pyval :=
  match v with
  | VDict d => Return (match assoc k d with Some x => x | None => default end)
  | _ => Raise (no_attribute v "get")
  end.

(** [list(v.keys())]: only a dict has the method. *)
Definition py_keys (v : pyval) : outcome (list string) :=
  match v with
  | VDict d => Return (map fst d)
  | _ => Raise (no_attribute v "keys")
  end.

(** [bool(s)] for a str *)
Definition str_truthy (s : string) : bool := negb (String.eqb s EmptyString).

(** ** The runtime the module is loaded in *)

(** The Glue client: the history of requests and the request give the
    [SchemaDefinition] text of the response, or the exception that the call
    (or the access to that field) raises. *)
Definition glue := list glue_request -> glue_request -> outcome string.

(** What the module finds at import time, and the library functions it
    calls.  [glue_client] is [None] when boto3 is missing. *)
Record runtime : Type := Runtime {
  FASTAVRO_AVAILABLE : bool;
  glue_client : option glue;
  GLUE_REGISTRY_NAME : option string;
  json_loads : string -> outcome pyval;
  parse_schema : pyval -> outcome pyval;
  schemaless_reader : list byte -> pyval -> outcome pyval;
  zlib_decompress : list byte -> outcome (list byte)
}.

(** [glue_client.get_schema_version(...)['SchemaDefinition']]: the request is
    recorded whether or not the call succeeds. *)
Definition get_schema_version (client : glue) (req : glue_request) : M string :=
  fun st =>
    (client (glue_calls st) req,
     State (_schema_cache st) (glue_calls st ++ [req]) (stdout st)).

(** [except (json.JSONDecodeError, UnicodeDecodeError)] *)
Definition json_or_unicode_error (e : exn) : bool :=
  match exn_kind e with
  | JSONDecodeError | UnicodeDecodeError => true
  | _ => false
  end.

(** [try: body except classes: handler], other exceptions pass through. *)
Definition try_except_only {A} (body : M A) (classes : exn -> bool)
    (handler : M A) : M A :=
  fun st =>
    match body st with
    | (Return a, st') => (Return a, st')
    | (Raise e, st') => if classes e then handler st' else (Raise e, st')
    end.

(** The static topic-name to schema-name table of [deserialize_message]. *)
Definition TOPIC_SCHEMA_MAP : gmap string string :=
  list_to_map
    [("taxi-trips", "taxi-trip-schema");
     ("taxi-rides", "taxi-trip-schema");
     ("taxi-trip-schema", "taxi-trip-schema");
     ("taxi-locations", "taxi-locations")].

Section Lambda.

Context (rt : runtime).

(** Lines 70-74 and 96-104: the remote call and the parsing of its answer,
    the part of both resolvers that can raise. *)
Definition fetch_and_parse (client : glue) (req : glue_request) : M pyval :=
  let* definition := get_schema_version client req in
  let* schema_def := lift (json_loads rt definition) in
  if FASTAVRO_AVAILABLE rt then lift (parse_schema rt schema_def)
  else ret schema_def.

(** *** get_avro_schema (index.py, lines 58-80) *)
Definition get_avro_schema (schema_version_id : string) : M pyval :=
  let* hit := cache_lookup schema_version_id in
  match hit with
  | Some cached => ret cached
  | None =>
      match glue_client rt with
      | None => print LogGlueUnavailable ;;; ret VNone
      | Some client =>
          try_except
            (let* parsed_schema :=
               fetch_and_parse client (ByVersionId schema_version_id) in
             cache_store schema_version_id parsed_schema ;;;
             print (LogCachedVersion schema_version_id) ;;;
             ret parsed_schema)
            (fun e => print (LogFetchError schema_version_id e) ;;; ret VNone)
      end
  end.

(** *** get_schema_by_name (index.py, lines 83-110) *)
Definition get_schema_by_name (schema_name : string) : M pyval :=
  let cache_key := "name:" +:+ schema_name in
  let* hit := cache_lookup cache_key in
  match hit with
  | Some cached => ret cached
  | None =>
      match glue_client rt, GLUE_REGISTRY_NAME rt with
      | Some client, Some registry =>
          if str_truthy registry then
            try_except
              (let* parsed_schema :=
                 fetch_and_parse client (ByName registry schema_name) in
               cache_store cache_key parsed_schema ;;;
               print (LogCachedName schema_name) ;;;
               ret parsed_schema)
              (fun e => print (LogFetchByNameError schema_name e) ;;; ret VNone)
          else print LogGlueOrRegistryUnavailable ;;; ret VNone
      | _, _ => print LogGlueOrRegistryUnavailable ;;; ret VNone
      end
  end.

(** The fallback record of the binary decoder. *)
Definition decode_fallback (avro_bytes : list byte) (reason : string) : M pyval :=
  let* text := b64_text avro_bytes in
  ret (VDict [("raw_bytes", VStr text); ("decode_error", VStr reason)]).

(** *** decode_avro_payload (index.py, lines 113-126) *)
Definition decode_avro_payload (avro_bytes : list byte) (schema : pyval) : M pyval :=
  if negb (FASTAVRO_AVAILABLE rt) then
    decode_fallback avro_bytes "fastavro not available"
  else
    try_except
      (let* record := lift (schemaless_reader rt avro_bytes schema) in
       ret record)
      (fun e =>
         print (LogAvroDecodeError e) ;;;
         decode_fallback avro_bytes (exn_msg e)).

(** The header test of line 151: more than 18 bytes, the first one 0x03. *)
Definition has_registry_header (raw_bytes : list byte) : bool :=
  Nat.ltb 18 (length raw_bytes)
  && match raw_bytes !! 0 with
     | Some first => Byte.eqb first x03
     | None => false
     end.

(** Lines 168-175: fetch the schema and decode, or give the payload back
    with the identifier. *)
Definition resolve_and_decode (schema_version_id : string)
    (avro_payload : list byte) : M pyval :=
  let* schema := get_avro_schema schema_version_id in
  if py_truthy schema then
    let* decoded := decode_avro_payload avro_payload schema in
    let* keys :=
      (if is_dict decoded then
         let* ks := lift (py_keys decoded) in ret (Some ks)
       else ret None) in
    print (LogDecoded keys) ;;;
    ret decoded
  else
    let* text := b64_text avro_payload in
    ret (VDict [("raw_bytes", VStr text);
                ("schema_version_id", VStr schema_version_id)]).

(** The body of the [try] of lines 152-175. *)
Definition registry_envelope_body (raw_bytes : list byte) (topic : string) : M pyval :=
  print (LogDetected topic) ;;;
  let* compression := py_index raw_bytes 1 in
  let schema_uuid_bytes := py_slice raw_bytes 2 18 in
  let* u := lift (uuid_UUID schema_uuid_bytes) in
  let schema_version_id := uuid_str u in
  print (LogSchemaVersionId schema_version_id) ;;;
  let avro_payload := drop 18 raw_bytes in
  let* avro_payload :=
    (if Byte.eqb compression x05 then
       let* inflated := lift (zlib_decompress rt avro_payload) in
       print LogDecompressed ;;; ret inflated
     else ret avro_payload) in
  resolve_and_decode schema_version_id avro_payload.

(** Lines 152-178: the body under its [except Exception]. *)
Definition registry_envelope_path (raw_bytes : list byte) (topic : string) : M pyval :=
  try_except
    (registry_envelope_body raw_bytes topic)
    (fun e =>
       print (LogRegistryFailed e) ;;;
       let* text := b64_text raw_bytes in
       ret (VDict [("raw_bytes", VStr text); ("error", VStr (exn_msg e))])).

(** Lines 180-184: [Some v] is [return v], [None] is falling out of the
    [except ... pass]. *)
Definition json_strategy (raw_bytes : list byte) : M (option pyval) :=
  try_except_only
    (let* text := lift (bytes_decode_utf8 raw_bytes) in
     let* v := lift (json_loads rt text) in
     ret (Some v))
    json_or_unicode_error
    (ret None).

(** Lines 186-197: [Some v] is [return v], [None] is falling through to the
    last line. *)
Definition topic_strategy (raw_bytes : list byte) (topic : string) : M (option pyval) :=
  match TOPIC_SCHEMA_MAP !! topic with
  | Some schema_name =>
      if str_truthy schema_name && FASTAVRO_AVAILABLE rt then
        let* schema := get_schema_by_name schema_name in
        if py_truthy schema then
          print (LogAttemptRaw topic schema_name) ;;;
          let* decoded := decode_avro_payload raw_bytes schema in
          if is_dict decoded && negb (dict_contains "decode_error" decoded) then
            let* keys := lift (py_keys decoded) in
            print (LogRawDecoded keys) ;;;
            ret (Some decoded)
          else
            let* reason :=
              lift (py_get decoded "decode_error" (VStr "unknown error")) in
            print (LogRawDecodeFailed reason) ;;;
            ret None
        else ret None
      else ret None
  | None => ret None
  end.

(** Lines 180-200: what runs when no registry header is found. *)
Definition plain_path (raw_bytes : list byte) (topic : string) : M pyval :=
  let* parsed := json_strategy raw_bytes in
  match parsed with
  | Some v => ret v
  | None =>
      let* decoded := topic_strategy raw_bytes topic in
      match decoded with
      | Some v => ret v
      | None =>
          let* text := b64_text raw_bytes in
          ret (VDict [("raw_bytes", VStr text)])
      end
  end.

(** *** deserialize_message (index.py, lines 129-200) *)
Definition deserialize_message (raw_bytes : list byte) (topic : string) : M pyval :=
  if has_registry_header raw_bytes
  then registry_envelope_path raw_bytes topic
  else plain_path raw_bytes topic.

End Lambda.

(** A process that has just started: nothing cached, called or printed. *)
Definition cold : state := State ∅ [] [].

(** The state after more lines were printed. *)
Definition printed (st : state) (lines : list log_line) : state :=
  State (_schema_cache st) (glue_calls st) (stdout st ++ lines).

(** The same runtime with another zlib. *)
Definition with_zlib (rt : runtime)
    (z : list byte -> outcome (list byte)) : runtime :=
  Runtime (FASTAVRO_AVAILABLE rt) (glue_client rt) (GLUE_REGISTRY_NAME rt)
          (json_loads rt) (parse_schema rt) (schemaless_reader rt) z.

(** The lines that only the registry-envelope path and the resolver by
    identifier print. *)
Definition envelope_line (l : log_line) : bool :=
  match l with
  | LogDetected _ | LogSchemaVersionId _ | LogDecompressed | LogDecoded _
  | LogRegistryFailed _ | LogGlueUnavailable | LogCachedVersion _
  | LogFetchError _ _ => true
  | _ => false
  end.

Definition by_name_request (req : glue_request) : bool :=
  match req with ByName _ _ => true | ByVersionId _ => false end.

(** [st'] comes from [st] by printing lines that are not of the envelope
    path and by sending requests by name only. *)
Definition plain_extension (st st' : state) : Prop :=
  exists lines reqs,
    stdout st' = stdout st ++ lines
    /\ Forall (fun l => envelope_line l = false) lines
    /\ glue_calls st' = glue_calls st ++ reqs
    /\ Forall (fun r => by_name_request r = true) reqs.

(** A computation that only ever makes such steps. *)
Definition plain_only {A} (m : M A) : Prop :=
  forall st, plain_extension st (snd (m st)).

(** The identifier that the header of a message carries in bytes 2-17. *)
Definition header_schema_id (raw_bytes : list byte) : string :=
  uuid_str (py_slice raw_bytes 2 18).

(** ** base64.b64decode, as the handler calls it *)

(** [str(n)] for an integer. *)
Definition decimal (z : Z) : string := NilZero.string_of_int (Z.to_int z).

(** The place of a character in the base64 alphabet. *)
Fixpoint index_of (c : byte) (l : list byte) (i : N) : option N :=
  match l with
  | [] => None
  | x :: l' => if Byte.eqb c x then Some i else index_of c l' (i + 1)
  end.

Definition b64_value (c : byte) : option N := index_of c b64_alphabet 0.

(** A value stored into an [unsigned char]. *)
Definition low_byte (n : N) : byte :=
  match Byte.of_N (n mod 256) with
  | Some b => b
  | None => x00
  end.

(** A decoded byte goes in front of what the rest of the input gives. *)
Definition emit (b : byte) (rest : outcome (list byte)) : outcome (list byte) :=
  match rest with
  | Return l => Return (b :: l)
  | Raise e => Raise e
  end.

Definition binascii_error (msg : string) : exn :=
  Exn (LibraryError "binascii.Error") msg.

(** [binascii.a2b_base64] without strict mode, the loop of CPython:
    characters outside the alphabet are skipped, a pad sequence that
    completes a quad ends the input, and an incomplete quad at the end is an
    error.  [quad_pos], [leftchar] and [pads] are the variables of the loop,
    [written] counts the bytes decoded so far. *)
Fixpoint a2b_base64 (data : list byte) (quad_pos : nat) (leftchar : N)
    (pads : nat) (written : nat) : outcome (list byte) :=
  match data with
  | [] =>
      match quad_pos with
      | 0 => Return []
      | 1 =>
          Raise (binascii_error
                   ("Invalid base64-encoded string: number of data characters ("
                    +:+ decimal (Z.of_nat (written / 3 * 4 + 1))
                    +:+ ") cannot be 1 more than a multiple of 4"))
      | _ => Raise (binascii_error "Incorrect padding")
      end
  | ch :: rest =>
      if Byte.eqb ch x3d then
        if Nat.leb 2 quad_pos then
          if Nat.leb 4 (quad_pos + S pads) then Return []
          else a2b_base64 rest quad_pos leftchar (S pads) written
        else a2b_base64 rest quad_pos leftchar pads written
      else
        match b64_value ch with
        | None => a2b_base64 rest quad_pos leftchar pads written
        | Some v =>
            match quad_pos with
            | 0 => a2b_base64 rest 1 v 0 written
            | 1 =>
                emit (low_byte (N.lor (N.shiftl leftchar 2) (N.shiftr v 4)))
                     (a2b_base64 rest 2 (N.land v 15) 0 (S written))
            | 2 =>
                emit (low_byte (N.lor (N.shiftl leftchar 4) (N.shiftr v 2)))
                     (a2b_base64 rest 3 (N.land v 3) 0 (S written))
            | _ =>
                emit (low_byte (N.lor (N.shiftl leftchar 6) v))
                     (a2b_base64 rest 0 0 0 (S written))
            end
        end
  end.

(** [base64.b64decode(s)]: an ASCII str or bytes, anything else is a
    [TypeError]. *)
Definition b64decode (s : pyval) : outcome (list byte) :=
  match s with
  | VStr text =>
      if forallb (in_range 0x00 0x7F) (list_byte_of_string text)
      then a2b_base64 (list_byte_of_string text) 0 0 0 0
      else Raise (Exn ValueError
                      "string argument should contain only ASCII characters")
  | VBytes b => a2b_base64 b 0 0 0 0
  | _ =>
      Raise (Exn (LibraryError "TypeError")
                 ("argument should be a bytes-like object or ASCII string, not '"
                  +:+ py_type_name s +:+ "'"))
  end.

(** All byte values, for proofs by enumeration. *)
Definition all_bytes : list byte := map (fun n => low_byte (N.of_nat n)) (seq 0 256).

(** The facts about the base64 groups of adjacent bytes that the round
    trip needs, as boolean checks over all byte values. *)
Definition decodes_to (c : byte) (k : N) : bool :=
  negb (Byte.eqb c x3d)
  && match b64_value c with Some v => N.eqb v k | None => false end.

Definition check_first (a b : byte) : bool :=
  let x := Byte.to_N a in
  let y := Byte.to_N b in
  let k1 := (x / 4)%N in
  let k2 := ((x mod 4) * 16 + y / 16)%N in
  decodes_to (b64_char k1) k1 && decodes_to (b64_char k2) k2
  && Byte.eqb (low_byte (N.lor (N.shiftl k1 2) (N.shiftr k2 4))) a
  && N.eqb (N.land k2 15) (y / 16).

Definition check_second (b c : byte) : bool :=
  let y := Byte.to_N b in
  let z := Byte.to_N c in
  let k3 := ((y mod 16) * 4 + z / 64)%N in
  decodes_to (b64_char k3) k3
  && Byte.eqb (low_byte (N.lor (N.shiftl (y / 16) 4) (N.shiftr k3 2))) b
  && N.eqb (N.land k3 3) (z / 64).

Definition check_third (c : byte) : bool :=
  let z := Byte.to_N c in
  let k4 := (z mod 64)%N in
  decodes_to (b64_char k4) k4
  && Byte.eqb (low_byte (N.lor (N.shiftl (z / 64) 6) k4)) c.

(** Two bytes with the same two hexadecimal digits are the same byte. *)
Definition check_hex (a b : byte) : bool :=
  implb (String.eqb (hex_byte a) (hex_byte b)) (Byte.eqb a b).

(** ** The handler and its collaborators (index.py, lines 203-506) *)

(** Values as they are stored in DynamoDB after [convert_to_decimal]: every
    float has become a [Decimal], given by its text. *)
Inductive dval : Type :=
| DNone
| DBool (b : bool)
| DInt (z : Z)
| DDecimal (text : string)
| DStr (s : string)
| DBytes (b : list byte)
| DList (l : list dval)
| DDict (items : list (string * dval)).

(** An attribute of an item: a value taken as it is, or a converted one. *)
Inductive attr : Type :=
| Plain (v : pyval)
| Converted (d : dval).

Definition item : Type := list (string * attr).

(** The POST that [publish_to_appsync] sends: the URL, the [x-api-key]
    header when a key is configured, and the two fields of the body. *)
Record http_request : Type := HttpRequest {
  req_url : string;
  req_api_key : option string;
  req_channel : string;
  req_event : string
}.

(** How [urlopen] ends: a response with its body, an [HTTPError] with its
    code and body, a [URLError] with its reason, or any other exception. *)
Inductive http_result : Type :=
| HttpOk (body : list byte)
| HttpError (code : Z) (body : list byte)
| UrlError (reason : string)
| HttpFailure (e : exn).

(** The DynamoDB table: what [put_item], the [put_item] of a batch writer
    and the exit of the batch writer do, given the items handed over so
    far. *)
Record dynamo_table : Type := DynamoTable {
  put_item : list item -> item -> outcome unit;
  batch_put_item : list item -> item -> outcome unit;
  batch_exit : list item -> outcome unit
}.

(** What the handler finds around the decode pipeline: the configuration,
    the table ([None] when it is not configured or boto3 is missing), and
    the library functions it calls.  [utcnow n] is the [n]-th reading of the
    clock, as its integer timestamp and its ISO text. *)
Record services : Type := Services {
  core : runtime;
  APPSYNC_HTTP_ENDPOINT : option string;
  APPSYNC_API_KEY : option string;
  HISTORICAL_RETENTION_DAYS : Z;
  events_table : option dynamo_table;
  json_dumps : pyval -> outcome string;
  urlopen : list http_request -> http_request -> http_result;
  utcnow : nat -> Z * string;
  float_str : spec_float -> string;
  py_repr : pyval -> string
}.

(** The lines the handler and its collaborators print. *)
Inductive handler_line : Type :=
| LogReceived (total_records : nat)
| LogRecordError (e : exn)
| LogComplete (result : pyval)
| LogNoEndpoint
| LogAppSyncResponse (body : string)
| LogHttpError (code : Z) (body : string)
| LogUrlError (reason : string)
| LogPublishError (e : exn)
| LogBatchSaved (n : nat)
| LogBatchError (e : exn)
| LogTableNotConfigured
| LogSaved (event_id : string)
| LogSaveError (e : exn).

(** The world of one invocation: the state of the decode pipeline, the
    requests posted, the items handed to the table, the number of clock
    readings, the lines printed by the handler, and the local variables that
    the handler and [batch_save_to_dynamodb] update in place. *)
Record world : Type := World {
  mem : state;
  http_posts : list http_request;
  batch_items : list item;
  table_puts : list item;
  clock_reads : nat;
  console : list handler_line;
  processed_count : nat;
  error_count : nat;
  all_event_payloads : list pyval;
  saved_ids : list string
}.

Definition W (A : Type) : Type := world -> outcome A * world.

Definition wret {A} (a : A) : W A := fun w => (Return a, w).

Definition wbind {A B} (m : W A) (k : A -> W B) : W B :=
  fun w =>
    match m w with
    | (Return a, w') => k a w'
    | (Raise e, w') => (Raise e, w')
    end.

Definition wlift {A} (o : outcome A) : W A := fun w => (o, w).

(** [try: body except Exception as e: handler] *)
Definition wtry {A} (body : W A) (handler : exn -> W A) : W A :=
  fun w =>
    match body w with
    | (Return a, w') => (Return a, w')
    | (Raise e, w') => handler e w'
    end.

(** A computation of the decode pipeline, run on its part of the world. *)
Definition run_core {A} (m : M A) : W A :=
  fun w =>
    let '(r, st') := m (mem w) in
    (r, World st' (http_posts w) (batch_items w) (table_puts w) (clock_reads w)
              (console w) (processed_count w) (error_count w)
              (all_event_payloads w) (saved_ids w)).

Definition hprint (l : handler_line) : W unit :=
  fun w =>
    (Return tt,
     World (mem w) (http_posts w) (batch_items w) (table_puts w) (clock_reads w)
           (console w ++ [l]) (processed_count w) (error_count w)
           (all_event_payloads w) (saved_ids w)).

Notation "'let+' x ':=' m 'in' k" := (wbind m (fun x => k))
  (at level 10, x name, m at level 100, k at level 200, only parsing) : py_scope.
Notation "m1 ';;+' m2" := (wbind m1 (fun _ => m2))
  (at level 100, m2 at level 200, right associativity, only parsing) : py_scope.

(** [d.get(k, default)] on the items of a dict. *)
Definition items_get (d : list (string * pyval)) (k : string)
    (default : pyval) : pyval :=
  match assoc k d with
  | Some v => v
  | None => default
  end.

(** [v is None] *)
Definition is_none (v : pyval) : bool :=
  match v with VNone => true | _ => false end.

(** The part of a string before its last dash, if it has one. *)
Fixpoint before_last_dash (s : string) : option string :=
  match s with
  | EmptyString => None
  | String c s' =>
      match before_last_dash s' with
      | Some p => Some (String c p)
      | None => if Ascii.eqb c "-" then Some EmptyString else None
      end
  end.

(** [s.rsplit('-', 1)[0]] *)
Definition rsplit_dash_first (s : string) : string :=
  match before_last_dash s with
  | Some p => p
  | None => s
  end.

Section Handler.

Context (sv : services).

(** [datetime.utcnow()] *)
Definition read_clock : W (Z * string) :=
  fun w =>
    (Return (utcnow sv (clock_reads w)),
     World (mem w) (http_posts w) (batch_items w) (table_puts w)
           (S (clock_reads w)) (console w) (processed_count w) (error_count w)
           (all_event_payloads w) (saved_ids w)).

(** [str(v)], as an f-string formats a value. *)
Definition py_str (v : pyval) : string :=
  match v with
  | VNone => "None"
  | VBool true => "True"
  | VBool false => "False"
  | VInt z => decimal z
  | VStr s => s
  | _ => py_repr sv v
  end.

(** [convert_to_decimal] (lines 244-251 and 313-320) *)
Fixpoint convert_to_decimal (obj : pyval) : dval :=
  match obj with
  | VFloat f => DDecimal (float_str sv f)
  | VDict d => DDict (map (fun kv => (fst kv, convert_to_decimal (snd kv))) d)
  | VList l => DList (map convert_to_decimal l)
  | VNone => DNone
  | VBool b => DBool b
  | VInt z => DInt z
  | VStr s => DStr s
  | VBytes b => DBytes b
  end.

(** [convert_to_decimal(x) if x is not None else None] *)
Definition converted_or_none (x : pyval) : attr :=
  if is_none x then Plain VNone else Converted (convert_to_decimal x).

(** [{k: v for k, v in item.items() if v is not None}] *)
Definition remove_none (it : item) : item :=
  List.filter
    (fun kv => match snd kv with Plain VNone => false | _ => true end) it.

(** The urlopen call: the request is recorded. *)
Definition post (req : http_request) : W http_result :=
  fun w =>
    (Return (urlopen sv (http_posts w) req),
     World (mem w) (http_posts w ++ [req]) (batch_items w) (table_puts w)
           (clock_reads w) (console w) (processed_count w) (error_count w)
           (all_event_payloads w) (saved_ids w)).

(** *** publish_to_appsync (lines 399-437) *)
Definition publish_to_appsync (channel : string) (event_data : pyval) : W bool :=
  match APPSYNC_HTTP_ENDPOINT sv with
  | None => hprint LogNoEndpoint ;;+ wret false
  | Some endpoint =>
      if negb (str_truthy endpoint) then hprint LogNoEndpoint ;;+ wret false
      else
        let url := endpoint +:+ "/event" in
        let+ event_json := wlift (json_dumps sv event_data) in
        let api_key :=
          match APPSYNC_API_KEY sv with
          | Some k => if str_truthy k then Some k else None
          | None => None
          end in
        let+ answer := post (HttpRequest url api_key channel event_json) in
        match answer with
        | HttpOk body =>
            match bytes_decode_utf8 body with
            | Return text => hprint (LogAppSyncResponse text) ;;+ wret true
            | Raise e => hprint (LogPublishError e) ;;+ wret false
            end
        | HttpError code body =>
            let+ text := wlift (bytes_decode_utf8 body) in
            hprint (LogHttpError code text) ;;+ wret false
        | UrlError reason => hprint (LogUrlError reason) ;;+ wret false
        | HttpFailure e => hprint (LogPublishError e) ;;+ wret false
        end
  end.

(** Line 348: [f"{topic}-{partition}-{offset}"] *)
Definition event_id_of (topic partition offset : pyval) : string :=
  py_str topic +:+ "-" +:+ py_str partition +:+ "-" +:+ py_str offset.

(** Lines 326-387: the item of one event payload and its identifier. *)
Definition batch_item (timestamp ttl : Z) (event_payload : pyval) :
    W (string * item) :=
  let+ topic := wlift (py_get event_payload "topic" (VStr "unknown")) in
  let+ partition := wlift (py_get event_payload "partition" (VInt 0)) in
  let+ offset := wlift (py_get event_payload "offset" (VInt 0)) in
  let+ data := wlift (py_get event_payload "data" (VDict [])) in
  let+ pu_location_id := wlift (py_get data "PULocationID" VNone) in
  let+ do_location_id := wlift (py_get data "DOLocationID" VNone) in
  let+ pickup_longitude := wlift (py_get data "pickup_longitude" VNone) in
  let+ pickup_latitude := wlift (py_get data "pickup_latitude" VNone) in
  let+ dropoff_longitude := wlift (py_get data "dropoff_longitude" VNone) in
  let+ dropoff_latitude := wlift (py_get data "dropoff_latitude" VNone) in
  let+ pickup_datetime :=
    wlift (py_get data "tpep_pickup_datetime" (VStr EmptyString)) in
  let+ dropoff_datetime :=
    wlift (py_get data "tpep_dropoff_datetime" (VStr EmptyString)) in
  let event_id := event_id_of topic partition offset in
  let+ event_timestamp :=
    wlift (py_get event_payload "timestamp" (VInt timestamp)) in
  let pk :=
    if is_none pu_location_id then "TOPIC#" +:+ py_str topic
    else "LOC#" +:+ py_str pu_location_id in
  let+ key := wlift (py_get event_payload "key" VNone) in
  let+ data_json := wlift (json_dumps sv data) in
  let+ now := read_clock in
  let+ processed_at :=
    wlift (py_get event_payload "processed_at" (VStr (snd now))) in
  wret
    (event_id,
     remove_none
       [("pk", Plain (VStr pk));
        ("sk", Plain (VStr ("P#" +:+ py_str partition +:+ "#O#" +:+ py_str offset)));
        ("id", Plain (VStr event_id));
        ("topic", Plain topic);
        ("partition", Plain partition);
        ("offset", Plain offset);
        ("timestamp", Plain event_timestamp);
        ("key", Plain key);
        ("PULocationID", Plain pu_location_id);
        ("DOLocationID", Plain do_location_id);
        ("pickup_longitude", converted_or_none pickup_longitude);
        ("pickup_latitude", converted_or_none pickup_latitude);
        ("dropoff_longitude", converted_or_none dropoff_longitude);
        ("dropoff_latitude", converted_or_none dropoff_latitude);
        ("pickup_datetime", Plain pickup_datetime);
        ("dropoff_datetime", Plain dropoff_datetime);
        ("data", Plain (VStr data_json));
        ("processedAt", Plain processed_at);
        ("ttl", Plain (VInt ttl));
        ("_version", Plain (VInt 1));
        ("_lastChangedAt", Plain (VInt timestamp))]).

(** [batch.put_item(Item=item)]: the item is recorded. *)
Definition batch_put (table : dynamo_table) (it : item) : W unit :=
  fun w =>
    (batch_put_item table (batch_items w) it,
     World (mem w) (http_posts w) (batch_items w ++ [it]) (table_puts w)
           (clock_reads w) (console w) (processed_count w) (error_count w)
           (all_event_payloads w) (saved_ids w)).

(** [saved_ids.append(event_id)] *)
Definition append_saved_id (event_id : string) : W unit :=
  fun w =>
    (Return tt,
     World (mem w) (http_posts w) (batch_items w) (table_puts w) (clock_reads w)
           (console w) (processed_count w) (error_count w)
           (all_event_payloads w) (saved_ids w ++ [event_id])).

(** The loop of lines 324-390. *)
Fixpoint batch_loop (table : dynamo_table) (timestamp ttl : Z)
    (event_payloads : list pyval) : W unit :=
  match event_payloads with
  | [] => wret tt
  | event_payload :: rest =>
      let+ built := batch_item timestamp ttl event_payload in
      batch_put table (snd built) ;;+
      append_saved_id (fst built) ;;+
      batch_loop table timestamp ttl rest
  end.

(** [with events_table.batch_writer() as batch: body]: the writer is left
    whether the body raised or not; when leaving raises, that exception is
    the one in flight. *)
Definition with_batch_writer (table : dynamo_table) (body : W unit) : W unit :=
  fun w =>
    match body w with
    | (Return _, w') => (batch_exit table (batch_items w'), w')
    | (Raise e, w') =>
        match batch_exit table (batch_items w') with
        | Return _ => (Raise e, w')
        | Raise e' => (Raise e', w')
        end
    end.

(** *** batch_save_to_dynamodb (lines 299-396) *)
Definition batch_save_to_dynamodb (event_payloads : list pyval) : W (list string) :=
  match events_table sv, event_payloads with
  | None, _ => wret []
  | Some _, [] => wret []
  | Some table, _ :: _ =>
      (fun w =>
         (Return tt,
          World (mem w) (http_posts w) (batch_items w) (table_puts w)
                (clock_reads w) (console w) (processed_count w) (error_count w)
                (all_event_payloads w) [])) ;;+
      let+ now := read_clock in
      let timestamp := fst now in
      let ttl := (timestamp + HISTORICAL_RETENTION_DAYS sv * 24 * 60 * 60)%Z in
      wtry
        (with_batch_writer table (batch_loop table timestamp ttl event_payloads) ;;+
         (fun w => hprint (LogBatchSaved (length (saved_ids w))) w))
        (fun e => hprint (LogBatchError e)) ;;+
      (fun w => (Return (saved_ids w), w))
  end.

(** [all_event_payloads.append(event_payload)] *)
Definition append_payload (event_payload : pyval) : W unit :=
  fun w =>
    (Return tt,
     World (mem w) (http_posts w) (batch_items w) (table_puts w) (clock_reads w)
           (console w) (processed_count w) (error_count w)
           (all_event_payloads w ++ [event_payload]) (saved_ids w)).

(** [processed_count += 1] and [error_count += 1] *)
Definition count_processed : W unit :=
  fun w =>
    (Return tt,
     World (mem w) (http_posts w) (batch_items w) (table_puts w) (clock_reads w)
           (console w) (S (processed_count w)) (error_count w)
           (all_event_payloads w) (saved_ids w)).

Definition count_error : W unit :=
  fun w =>
    (Return tt,
     World (mem w) (http_posts w) (batch_items w) (table_puts w) (clock_reads w)
           (console w) (processed_count w) (S (error_count w))
           (all_event_payloads w) (saved_ids w)).

(** Lines 464-466: the key of a record, [None] unless the record has a
    key that is true, in which case it is base64 of UTF-8 text. *)
Definition decode_key (record : list (string * pyval)) : outcome pyval :=
  if py_truthy (items_get record "key" VNone) then
    match b64decode (items_get record "key" VNone) with
    | Return key_bytes =>
        match bytes_decode_utf8 key_bytes with
        | Return text => Return (VStr text)
        | Raise e => Raise e
        end
    | Raise e => Raise e
    end
  else Return VNone.

(** Lines 468-476: the payload handed to the publisher and to the table. *)
Definition make_event_payload (topic : string) (record : list (string * pyval))
    (key message_data : pyval) (processed_at : string) : pyval :=
  VDict [("topic", VStr topic);
         ("partition", items_get record "partition" VNone);
         ("offset", items_get record "offset" VNone);
         ("timestamp", items_get record "timestamp" VNone);
         ("key", key);
         ("data", message_data);
         ("processed_at", VStr processed_at)].

(** Lines 460-489: one record of the event. *)
Definition process_record (topic : string) (record : list (string * pyval)) : W unit :=
  wtry
    (let+ raw_value :=
       wlift (b64decode (items_get record "value" (VStr EmptyString))) in
     let+ message_data := run_core (deserialize_message (core sv) raw_value topic) in
     let+ key := wlift (decode_key record) in
     let+ now := read_clock in
     let event_payload :=
       make_event_payload topic record key message_data (snd now) in
     append_payload event_payload ;;+
     let+ published := publish_to_appsync ("/kafka/" +:+ topic) event_payload in
     if published then count_processed else count_error)
    (fun e => hprint (LogRecordError e) ;;+ count_error).

Fixpoint process_records (topic : string)
    (records : list (list (string * pyval))) : W unit :=
  match records with
  | [] => wret tt
  | record :: rest => process_record topic record ;;+ process_records topic rest
  end.

(** The loop of lines 456-489 over the items of [event['records']]. *)
Fixpoint process_partitions
    (partitions : list (string * list (list (string * pyval)))) : W unit :=
  match partitions with
  | [] => wret tt
  | (topic_partition, records) :: rest =>
      process_records (rsplit_dash_first topic_partition) records ;;+
      process_partitions rest
  end.

(** [sum(len(records) for records in event.get('records', {}).values())] *)
Definition total_records
    (partitions : list (string * list (list (string * pyval)))) : nat :=
  list_sum (map (fun kv => length (snd kv)) partitions).

Definition handler_result (processed saved errors : nat) : pyval :=
  VDict [("statusCode", VInt 200);
         ("body", VDict [("processed", VInt (Z.of_nat processed));
                         ("saved", VInt (Z.of_nat saved));
                         ("errors", VInt (Z.of_nat errors))])].

(** *** lambda_handler (lines 440-506); the argument is the items of
    [event.get('records', {})]. *)
Definition lambda_handler
    (partitions : list (string * list (list (string * pyval)))) : W pyval :=
  hprint (LogReceived (total_records partitions)) ;;+
  (fun w =>
     (Return tt,
      World (mem w) (http_posts w) (batch_items w) (table_puts w) (clock_reads w)
            (console w) 0 0 [] (saved_ids w))) ;;+
  process_partitions partitions ;;+
  let+ saved_count :=
    (fun w =>
       match all_event_payloads w with
       | [] => (Return 0, w)
       | payloads =>
           (let+ ids := batch_save_to_dynamodb payloads in wret (length ids)) w
       end) in
  (fun w =>
     let result := handler_result (processed_count w) saved_count (error_count w) in
     (hprint (LogComplete result) ;;+ wret result) w).

End Handler.

(** A world in which nothing has happened yet, around a given pipeline
    state. *)
Definition fresh (st : state) : world := World st [] [] [] 0 [] 0 0 [] [].

(** ** Test doubles

    Small stand-ins for the libraries, used to run the module on concrete
    inputs.  Each one agrees with the real library on the inputs it is run
    on below.  The general statements quantify over every runtime; the
    doubles only serve the examples. *)

Definition dquote : string := String (ascii_of_nat 34) EmptyString.

Definition not_found : exn :=
  Exn (LibraryError "EntityNotFoundException") "Schema version is not found.".

Definition bad_header_check : exn :=
  Exn (LibraryError "zlib.error")
      "Error -3 while decompressing data: incorrect header check".

(** The JSON texts [null], ["long"] and [{"a":1}]. *)
Definition text_null : string := "null".
Definition text_long : string := dquote +:+ "long" +:+ dquote.
Definition text_a1 : string := "{" +:+ dquote +:+ "a" +:+ dquote +:+ ":1}".

(** [json.loads] on the three texts above; any other text is refused the way
    a text that is not JSON is. *)
Definition json_double (text : string) : outcome pyval :=
  if String.eqb text text_null then Return VNone
  else if String.eqb text text_long then Return (VStr "long")
  else if String.eqb text text_a1 then Return (VDict [("a", VInt 1)])
  else Raise (Exn JSONDecodeError "Expecting value: line 1 column 1 (char 0)").

(** [zlib.compress(b'\x02')] is [78 9c 63 02 00 00 03 00 03]. *)
Definition deflated_02 : list byte := [x78; x9c; x63; x02; x00; x00; x03; x00; x03].

(** [zlib.decompress] on that stream; any other input is refused the way a
    stream with a bad header is. *)
Definition zlib_double (data : list byte) : outcome (list byte) :=
  if String.eqb (string_of_list_byte data) (string_of_list_byte deflated_02)
  then Return [x02]
  else Raise bad_header_check.

(** Avro's variable-length zig-zag integers: seven bits per byte, least
    significant group first, the high bit set on all bytes but the last. *)
Fixpoint read_varint (data : list byte) (shift : N) (acc : N) : option N :=
  match data with
  | [] => None
  | b :: rest =>
      let n := Byte.to_N b in
      let acc' := N.lor acc (N.shiftl (N.land n 127) shift) in
      if N.testbit n 7 then read_varint rest (shift + 7) acc' else Some acc'
  end.

Definition zigzag (n : N) : Z :=
  if N.testbit n 0 then (- Z.of_N (N.shiftr n 1) - 1)%Z
  else Z.of_N (N.shiftr n 1).

(** fastavro cut down to the primitive schema ["long"]. *)
Definition parse_schema_double (schema_def : pyval) : outcome pyval :=
  match schema_def with
  | VStr s =>
      if String.eqb s "long" then Return (VStr s)
      else Raise (Exn (LibraryError "UnknownType") s)
  | _ => Raise (Exn (LibraryError "SchemaParseException") "unsupported schema")
  end.

Definition reader_double (data : list byte) (schema : pyval) : outcome pyval :=
  match schema with
  | VStr s =>
      if String.eqb s "long" then
        match read_varint data 0 0 with
        | Some n => Return (VInt (zigzag n))
        | None => Raise (Exn (LibraryError "EOFError") EmptyString)
        end
      else Raise (Exn (LibraryError "UnknownType") s)
  | _ => Raise (Exn (LibraryError "SchemaParseException") "unsupported schema")
  end.

(** A registry that holds one schema, the primitive ["long"], under the name
    [taxi-trip-schema] and under the version identifier below. *)
Definition long_version_id : string := "00010203-0405-0607-0809-0a0b0c0d0e0f".

Definition glue_double : glue :=
  fun _ req =>
    let known :=
      match req with
      | ByVersionId id => String.eqb id long_version_id
      | ByName _ name => String.eqb name "taxi-trip-schema"
      end in
    if known then Return text_long else Raise not_found.

(** A process with neither fastavro nor boto3 installed. *)
Definition rt_bare : runtime :=
  Runtime false None None json_double parse_schema_double reader_double zlib_double.

(** A process with both, pointed at the registry [taxi-registry]. *)
Definition rt_full : runtime :=
  Runtime true (Some glue_double) (Some "taxi-registry")
          json_double parse_schema_double reader_double zlib_double.

(** Three thousand opening brackets.  CPython's [json.loads] gives up on
    this text with [RecursionError], a subclass of [RuntimeError] and not of
    [ValueError]: the nesting is deeper than the interpreter's recursion
    limit. *)
Definition deep_brackets : list byte := repeat x5b 3000.

Definition recursion_error : exn :=
  Exn (LibraryError "RecursionError")
      "maximum recursion depth exceeded while decoding a JSON array from a unicode string".

(** [json.loads] as above, and on the text of [deep_brackets]. *)
Definition json_deep_double (text : string) : outcome pyval :=
  if String.eqb text (string_of_list_byte deep_brackets)
  then Raise recursion_error
  else json_double text.

(** The process [rt_full] with that [json.loads]. *)
Definition rt_deep : runtime :=
  Runtime true (Some glue_double) (Some "taxi-registry")
          json_deep_double parse_schema_double reader_double zlib_double.

(** Sample messages: a registry header with the given compression byte and
    the identifier [long_version_id], followed by a payload. *)
Definition sample_header (compression : byte) : list byte :=
  [x03; compression; x00; x01; x02; x03; x04; x05; x06; x07;
   x08; x09; x0a; x0b; x0c; x0d; x0e; x0f].

(** A fastavro double that also reads records whose fields are all of type
    ["long"], the fields in schema order. *)
Fixpoint read_long (data : list byte) (shift : N) (acc : N) :
    option (Z * list byte) :=
  match data with
  | [] => None
  | b :: rest =>
      let n := Byte.to_N b in
      let acc' := N.lor acc (N.shiftl (N.land n 127) shift) in
      if N.testbit n 7 then read_long rest (shift + 7) acc'
      else Some (zigzag acc', rest)
  end.

Fixpoint read_long_fields (fields : list pyval) (data : list byte) :
    option (list (string * pyval)) :=
  match fields with
  | [] => Some []
  | VDict [("name", VStr f); ("type", VStr _)] :: fields' =>
      match read_long data 0 0 with
      | Some (z, rest) =>
          match read_long_fields fields' rest with
          | Some items => Some ((f, VInt z) :: items)
          | None => None
          end
      | None => None
      end
  | _ => None
  end.

Definition reader_records (data : list byte) (schema : pyval) : outcome pyval :=
  match schema with
  | VDict [("type", VStr _); ("name", VStr _); ("fields", VList fields)] =>
      match read_long_fields fields data with
      | Some items => Return (VDict items)
      | None => Raise (Exn (LibraryError "EOFError") EmptyString)
      end
  | _ => reader_double data schema
  end.

(** The record schema of a trip with one field, and one with a field that
    happens to be called [decode_error]. *)
Definition trip_schema : pyval :=
  VDict [("type", VStr "record"); ("name", VStr "Trip");
         ("fields", VList [VDict [("name", VStr "PULocationID");
                                  ("type", VStr "long")]])].

(** A process with fastavro and boto3 whose cache already holds the trip
    schema under the name the topic table gives to [taxi-trips]. *)
Definition rt_records : runtime :=
  Runtime true (Some glue_double) (Some "taxi-registry")
          json_double parse_schema_double reader_records zlib_double.

Definition warm : state :=
  State {[ "name:taxi-trip-schema" := trip_schema ]} [] [].

(** A process whose cache already holds the schema of [long_version_id]. *)
Definition warm_id : state :=
  State {[ long_version_id := VStr "long" ]} [] [].

(** [json.dumps] cut down to [None], booleans, integers, strings without
    characters that need a [\u] escape, lists and dicts; bytes are not JSON
    serializable, floats are left out. *)
Fixpoint json_escape (s : string) : string :=
  match s with
  | EmptyString => EmptyString
  | String c s' =>
      if Ascii.eqb c (ascii_of_nat 34) then String "\" (String c (json_escape s'))
      else if Ascii.eqb c "\" then String "\" (String "\" (json_escape s'))
      else String c (json_escape s')
  end.

Definition json_quote (s : string) : string := dquote +:+ json_escape s +:+ dquote.

Fixpoint dumps_text (v : pyval) : option string :=
  match v with
  | VNone => Some "null"
  | VBool true => Some "true"
  | VBool false => Some "false"
  | VInt z => Some (decimal z)
  | VStr s => Some (json_quote s)
  | VList l =>
      let fix elements (l : list pyval) : option string :=
        match l with
        | [] => Some EmptyString
        | [x] => dumps_text x
        | x :: l' =>
            match dumps_text x, elements l' with
            | Some a, Some b => Some (a +:+ ", " +:+ b)
            | _, _ => None
            end
        end in
      match elements l with
      | Some body => Some ("[" +:+ body +:+ "]")
      | None => None
      end
  | VDict d =>
      let fix members (d : list (string * pyval)) : option string :=
        match d with
        | [] => Some EmptyString
        | [(k, x)] =>
            match dumps_text x with
            | Some a => Some (json_quote k +:+ ": " +:+ a)
            | None => None
            end
        | (k, x) :: d' =>
            match dumps_text x, members d' with
            | Some a, Some b => Some (json_quote k +:+ ": " +:+ a +:+ ", " +:+ b)
            | _, _ => None
            end
        end in
      match members d with
      | Some body => Some ("{" +:+ body +:+ "}")
      | None => None
      end
  | _ => None
  end.

Definition dumps_double (v : pyval) : outcome string :=
  match dumps_text v with
  | Some text => Return text
  | None =>
      Raise (Exn (LibraryError "TypeError")
                 "Object is not JSON serializable")
  end.

(** An endpoint that answers every POST with an empty body, and one that
    cannot be reached. *)
Definition urlopen_ok : list http_request -> http_request -> http_result :=
  fun _ _ => HttpOk [].

Definition urlopen_down : list http_request -> http_request -> http_result :=
  fun _ _ => UrlError "timed out".

(** A table that accepts every item. *)
Definition table_ok : dynamo_table :=
  DynamoTable (fun _ _ => Return tt) (fun _ _ => Return tt) (fun _ => Return tt).

(** A clock that stands still. *)
Definition clock_double (n : nat) : Z * string :=
  (1700000000%Z, "2023-11-14T22:13:20").

Definition sv_demo : services :=
  Services rt_records (Some "https://events.example.com") (Some "da2-key") 30
           (Some table_ok) dumps_double urlopen_ok clock_double
           (fun _ => "0.0") (fun _ => "?").

(** The same process without an AppSync endpoint. *)
Definition sv_no_endpoint : services :=
  Services rt_records None None 30 (Some table_ok) dumps_double urlopen_ok
           clock_double (fun _ => "0.0") (fun _ => "?").

(** An MSK record with the given offset, key and value (both base64). *)
Definition msk_record (offset : Z) (key value : pyval) : list (string * pyval) :=
  [("topic", VStr "taxi-trips"); ("partition", VInt 0); ("offset", VInt offset);
   ("timestamp", VInt 1700000000000); ("key", key); ("value", value)].

(** An event with three records on [taxi-trips-0]: a JSON object, the JSON
    text [null], and a value that is not base64. *)
Definition sample_event : list (string * list (list (string * pyval))) :=
  [("taxi-trips-0",
    [msk_record 5 VNone (VStr (b64 (list_byte_of_string text_a1)));
     msk_record 6 (VStr "azE=") (VStr (b64 (list_byte_of_string text_null)));
     msk_record 7 VNone (VStr "a")])].

(** ** Payloads that the batch writer gets through, and payloads that stop it *)




(** ** What a step of the handler leaves alone *)

(** A computation that leaves one component of the world as it found it. *)
Definition keeps {A X} (f : world -> X) (m : W A) : Prop :=
  forall w, f (snd (m w)) = f w.

(** A stretch of the [try] body of [process_record]: it queues at most one
    payload, and it has counted the record exactly when it returns. *)
Definition counts_when_done {A} (m : W A) : Prop :=
  forall w,
    (all_event_payloads (snd (m w)) = all_event_payloads w
     \/ exists p, all_event_payloads (snd (m w)) = all_event_payloads w ++ [p])
    /\ match fst (m w) with
       | Return _ =>
           processed_count (snd (m w)) + error_count (snd (m w))
           = S (processed_count w + error_count w)
       | Raise _ =>
           processed_count (snd (m w)) = processed_count w
           /\ error_count (snd (m w)) = error_count w
       end.

(** ** What a call may do to the cache and to the registry *)

(** Two states that show the same cache and the same list of requests. *)
Definition same_registry_view (st st' : state) : Prop :=
  _schema_cache st' = _schema_cache st /\ glue_calls st' = glue_calls st.

(** The trace of at most one resolution of [key]: nothing, or one request
    [req] sent on a miss at [key], after which a schema may be stored under
    [key]. *)
Definition lookup_effect (key : string) (req : glue_request)
    (st st' : state) : Prop :=
  same_registry_view st st'
  \/ (_schema_cache st !! key = None
      /\ glue_calls st' = glue_calls st ++ [req]
      /\ (_schema_cache st' = _schema_cache st
          \/ exists s, _schema_cache st' = <[key := s]> (_schema_cache st))).

(** A computation that touches neither the cache nor the registry. *)
Definition quiet {A} (m : M A) : Prop :=
  forall st, same_registry_view st (snd (m st)).

(** A computation that resolves [key] at most once and does nothing else to
    the cache or the registry. *)
Definition looks_up {A} (key : string) (req : glue_request) (m : M A) : Prop :=
  forall st, lookup_effect key req st (snd (m st)).

(** The registry name a request by name carries. *)
Definition registry_of (rt : runtime) : string :=
  match GLUE_REGISTRY_NAME rt with
  | Some registry => registry
  | None => EmptyString
  end.

(** ** Helper facts *)

(** The computed library functions agree with CPython on sample inputs. *)
Example b64encode_hello : b64 (list_byte_of_string "hello") = "aGVsbG8=".
Proof. reflexivity. Qed.

Example uuid_str_sample :
  uuid_str (py_slice (sample_header x00 ++ [x02]) 2 18) = long_version_id.
Proof. reflexivity. Qed.

Example utf8_valid_two_byte : utf8_valid [xc3; xa9] = true.
Proof. reflexivity. Qed.

Example utf8_valid_bad_start : utf8_valid [xff; xfe] = false.
Proof. reflexivity. Qed.

Example utf8_valid_overlong : utf8_valid [xc0; x80] = false.
Proof. reflexivity. Qed.

Example utf8_valid_surrogate : utf8_valid [xed; xa0; x80] = false.
Proof. reflexivity. Qed.

Example reader_double_long : reader_double [x02] (VStr "long") = Return (VInt 1).
Proof. reflexivity. Qed.

Ltac unfold_m :=
  unfold bind, ret, raise, lift, try_except, try_except_only, print,
    cache_lookup, cache_store, get_schema_version in *.

Lemma b64_char_ascii (n : N) : in_range 0x00 0x7F (b64_char n) = true.
Proof.
  unfold b64_char.
  destruct (nth_in_or_default (N.to_nat n) b64_alphabet x3d) as [Hin | ->];
    [| reflexivity].
  assert (Hall : Forall (fun b => in_range 0x00 0x7F b = true) b64_alphabet)
    by (vm_compute; repeat constructor).
  rewrite List.Forall_forall in Hall. by apply Hall.
Qed.

(** Induction over a byte string three bytes at a time, the way base64
    consumes it. *)
Lemma list_ind3 {A} (P : list A -> Prop) :
  P [] -> (forall a, P [a]) -> (forall a b, P [a; b]) ->
  (forall a b c rest, P rest -> P (a :: b :: c :: rest)) ->
  forall l, P l.
Proof.
  intros H0 H1 H2 H3 l.
  assert (Hall : P l /\ (forall a, P (a :: l)) /\ (forall a b, P (a :: b :: l))).
  { induction l as [| x l (IH0 & IH1 & IH2)]; [by auto |].
    split; [apply IH1 |]. split; [intros a; apply IH2 |].
    intros a b. by apply H3. }
  apply Hall.
Qed.

Lemma b64encode_ascii (data : list byte) :
  Forall (fun b => in_range 0x00 0x7F b = true) (b64encode data).
Proof.
  induction data as [| a | a b | a b c rest IH] using list_ind3; simpl;
    repeat (constructor; try apply b64_char_ascii); done.
Qed.

Lemma utf8_valid_ascii (l : list byte) :
  Forall (fun b => in_range 0x00 0x7F b = true) l -> utf8_valid l = true.
Proof.
  induction 1 as [| b l Hb _ IH]; [done |]. simpl. by rewrite Hb.
Qed.

(** Base64 text always decodes: the fallback records can always be built. *)
Lemma b64_text_run (data : list byte) (st : state) :
  b64_text data st = (Return (b64 data), st).
Proof.
  unfold b64_text, lift, bytes_decode_utf8.
  by rewrite (utf8_valid_ascii _ (b64encode_ascii data)).
Qed.

(** ** The schema resolvers *)

Section Resolvers.

Context (rt : runtime).

(** The remote call is recorded, and nothing else changes, whatever it and
    the parsing give. *)
Lemma fetch_and_parse_state (client : glue) (req : glue_request) (st : state) :
  snd (fetch_and_parse rt client req st)
  = State (_schema_cache st) (glue_calls st ++ [req]) (stdout st).
Proof.
  unfold fetch_and_parse. unfold_m.
  destruct (client (glue_calls st) req) as [definition | e]; simpl; [| done].
  destruct (json_loads rt definition) as [schema_def | e]; simpl; [| done].
  by destruct (FASTAVRO_AVAILABLE rt).
Qed.

Lemma get_avro_schema_hit (id : string) (st : state) (s : pyval) :
  _schema_cache st !! id = Some s ->
  get_avro_schema rt id st = (Return s, st).
Proof. intros Hhit. unfold get_avro_schema. unfold_m. by rewrite Hhit. Qed.

Lemma get_avro_schema_no_client (id : string) (st : state) :
  _schema_cache st !! id = None -> glue_client rt = None ->
  get_avro_schema rt id st
  = (Return VNone,
     State (_schema_cache st) (glue_calls st) (stdout st ++ [LogGlueUnavailable])).
Proof.
  intros Hmiss Hclient. unfold get_avro_schema. unfold_m.
  by rewrite Hmiss, Hclient.
Qed.

(** On a miss with a client at hand there is one remote call; its success is
    cached and returned, its failure is printed and turned into [None]. *)
Lemma get_avro_schema_miss (client : glue) (id : string) (st : state) :
  _schema_cache st !! id = None -> glue_client rt = Some client ->
  get_avro_schema rt id st
  = match fst (fetch_and_parse rt client (ByVersionId id) st) with
    | Return s =>
        (Return s,
         State (<[id := s]> (_schema_cache st)) (glue_calls st ++ [ByVersionId id])
               (stdout st ++ [LogCachedVersion id]))
    | Raise e =>
        (Return VNone,
         State (_schema_cache st) (glue_calls st ++ [ByVersionId id])
               (stdout st ++ [LogFetchError id e]))
    end.
Proof.
  intros Hmiss Hclient. unfold get_avro_schema.
  unfold bind at 1. unfold cache_lookup. rewrite Hmiss, Hclient.
  pose proof (fetch_and_parse_state client (ByVersionId id) st) as Hst.
  unfold try_except, bind at 1.
  destruct (fetch_and_parse rt client (ByVersionId id) st) as [[s | e] st'];
    simpl in *; subst st'; done.
Qed.

Lemma get_schema_by_name_hit (name : string) (st : state) (s : pyval) :
  _schema_cache st !! ("name:" +:+ name) = Some s ->
  get_schema_by_name rt name st = (Return s, st).
Proof. intros Hhit. unfold get_schema_by_name. unfold_m. by rewrite Hhit. Qed.

Lemma get_schema_by_name_unavailable (name : string) (st : state) :
  _schema_cache st !! ("name:" +:+ name) = None ->
  glue_client rt = None \/ GLUE_REGISTRY_NAME rt = None
  \/ GLUE_REGISTRY_NAME rt = Some EmptyString ->
  get_schema_by_name rt name st
  = (Return VNone,
     State (_schema_cache st) (glue_calls st)
           (stdout st ++ [LogGlueOrRegistryUnavailable])).
Proof.
  intros Hmiss Hcfg. unfold get_schema_by_name. unfold_m. rewrite Hmiss.
  destruct Hcfg as [-> | [-> | ->]]; [done | |];
    by destruct (glue_client rt).
Qed.

Lemma get_schema_by_name_miss (client : glue) (registry name : string) (st : state) :
  _schema_cache st !! ("name:" +:+ name) = None ->
  glue_client rt = Some client ->
  GLUE_REGISTRY_NAME rt = Some registry -> str_truthy registry = true ->
  get_schema_by_name rt name st
  = match fst (fetch_and_parse rt client (ByName registry name) st) with
    | Return s =>
        (Return s,
         State (<["name:" +:+ name := s]> (_schema_cache st))
               (glue_calls st ++ [ByName registry name])
               (stdout st ++ [LogCachedName name]))
    | Raise e =>
        (Return VNone,
         State (_schema_cache st) (glue_calls st ++ [ByName registry name])
               (stdout st ++ [LogFetchByNameError name e]))
    end.
Proof.
  intros Hmiss Hclient Hreg Htruthy. unfold get_schema_by_name.
  unfold bind at 1. unfold cache_lookup. rewrite Hmiss, Hclient, Hreg, Htruthy.
  pose proof (fetch_and_parse_state client (ByName registry name) st) as Hst.
  unfold try_except, bind at 1.
  destruct (fetch_and_parse rt client (ByName registry name) st) as [[s | e] st'];
    simpl in *; subst st'; done.
Qed.

(** Neither resolver ever raises. *)
Lemma get_avro_schema_returns (id : string) (st : state) :
  exists v st', get_avro_schema rt id st = (Return v, st').
Proof.
  destruct (_schema_cache st !! id) as [s |] eqn:Hc.
  { rewrite (get_avro_schema_hit _ _ _ Hc). eauto. }
  destruct (glue_client rt) as [client |] eqn:Hg.
  - rewrite (get_avro_schema_miss _ _ _ Hc Hg).
    destruct (fst (fetch_and_parse rt client (ByVersionId id) st)); eauto.
  - rewrite (get_avro_schema_no_client _ _ Hc Hg). eauto.
Qed.

Lemma get_schema_by_name_returns (name : string) (st : state) :
  exists v st', get_schema_by_name rt name st = (Return v, st').
Proof.
  destruct (_schema_cache st !! ("name:" +:+ name)) as [s |] eqn:Hc.
  { rewrite (get_schema_by_name_hit _ _ _ Hc). eauto. }
  destruct (glue_client rt) as [client |] eqn:Hg.
  2:{ rewrite get_schema_by_name_unavailable; eauto. }
  destruct (GLUE_REGISTRY_NAME rt) as [registry |] eqn:Hr.
  2:{ rewrite get_schema_by_name_unavailable; eauto. }
  destruct (str_truthy registry) eqn:Ht.
  - rewrite (get_schema_by_name_miss _ _ _ _ Hc Hg Hr Ht).
    destruct (fst (fetch_and_parse rt client (ByName registry name) st)); eauto.
  - assert (registry = EmptyString) as ->.
    { unfold str_truthy in Ht. apply negb_false_iff in Ht.
      by apply String.eqb_eq in Ht. }
    rewrite get_schema_by_name_unavailable; eauto.
Qed.

End Resolvers.

(** C6. Resolving the same schema identifier twice issues exactly one remote
    registry call: on a cache miss whose lookup and parsing succeed, the
    first call to [get_avro_schema] sends one request, stores the parsed
    schema under the identifier and returns it; the second call returns the
    same schema from the cache and leaves the whole state, the list of
    requests included, as the first call left it. *)
Theorem get_avro_schema_twice_one_call
    (rt : runtime) (client : glue) (id : string) (st : state) (s : pyval) :
  _schema_cache st !! id = None ->
  glue_client rt = Some client ->
  fst (fetch_and_parse rt client (ByVersionId id) st) = Return s ->
  exists st1,
    get_avro_schema rt id st = (Return s, st1)
    /\ glue_calls st1 = glue_calls st ++ [ByVersionId id]
    /\ _schema_cache st1 = <[id := s]> (_schema_cache st)
    /\ get_avro_schema rt id st1 = (Return s, st1).
Proof.
  intros Hmiss Hclient Hfetch.
  rewrite (get_avro_schema_miss rt client id st Hmiss Hclient), Hfetch.
  eexists. split; [reflexivity |]. split; [reflexivity |].
  split; [reflexivity |].
  apply get_avro_schema_hit. simpl. apply lookup_insert_eq.
Qed.

Lemma get_avro_schema_twice_one_call_witness :
  exists st1,
    get_avro_schema rt_full long_version_id cold = (Return (VStr "long"), st1)
    /\ glue_calls st1 = [ByVersionId long_version_id]
    /\ _schema_cache st1 = <[long_version_id := VStr "long"]> ∅
    /\ get_avro_schema rt_full long_version_id st1 = (Return (VStr "long"), st1).
Proof.
  apply (get_avro_schema_twice_one_call rt_full glue_double long_version_id cold
           (VStr "long")); reflexivity.
Defined.

(** C7. When the remote registry call or the parsing of its answer fails,
    the resolver returns [None] without raising and leaves the schema cache
    as it was; the failure is not remembered, so the next call for the same
    key sends a request again.  This holds for [get_avro_schema] and for
    [get_schema_by_name]. *)
Theorem resolver_failure_not_cached
    (rt : runtime) (client : glue) (st : state) :
  glue_client rt = Some client ->
  (forall id e,
      _schema_cache st !! id = None ->
      fst (fetch_and_parse rt client (ByVersionId id) st) = Raise e ->
      exists st',
        get_avro_schema rt id st = (Return VNone, st')
        /\ _schema_cache st' = _schema_cache st
        /\ glue_calls (snd (get_avro_schema rt id st'))
           = glue_calls st ++ [ByVersionId id; ByVersionId id])
  /\ (forall registry name e,
      GLUE_REGISTRY_NAME rt = Some registry -> str_truthy registry = true ->
      _schema_cache st !! ("name:" +:+ name) = None ->
      fst (fetch_and_parse rt client (ByName registry name) st) = Raise e ->
      exists st',
        get_schema_by_name rt name st = (Return VNone, st')
        /\ _schema_cache st' = _schema_cache st
        /\ glue_calls (snd (get_schema_by_name rt name st'))
           = glue_calls st ++ [ByName registry name; ByName registry name]).
Proof.
  intros Hclient. split.
  - intros id e Hmiss Hfail.
    rewrite (get_avro_schema_miss rt client id st Hmiss Hclient), Hfail.
    eexists. split; [reflexivity |]. split; [reflexivity |].
    rewrite (get_avro_schema_miss rt client id
               (State (_schema_cache st) (glue_calls st ++ [ByVersionId id])
                      (stdout st ++ [LogFetchError id e])) Hmiss Hclient).
    match goal with
    | |- context [fst ?x] => destruct (fst x)
    end; simpl; by rewrite <- app_assoc.
  - intros registry name e Hreg Htruthy Hmiss Hfail.
    rewrite (get_schema_by_name_miss rt client registry name st
               Hmiss Hclient Hreg Htruthy), Hfail.
    eexists. split; [reflexivity |]. split; [reflexivity |].
    rewrite (get_schema_by_name_miss rt client registry name
               (State (_schema_cache st) (glue_calls st ++ [ByName registry name])
                      (stdout st ++ [LogFetchByNameError name e]))
               Hmiss Hclient Hreg Htruthy).
    match goal with
    | |- context [fst ?x] => destruct (fst x)
    end; simpl; by rewrite <- app_assoc.
Qed.

Lemma resolver_failure_not_cached_witness :
  (exists st',
      get_avro_schema rt_full "ffffffff-ffff-ffff-ffff-ffffffffffff" cold
      = (Return VNone, st')
      /\ _schema_cache st' = ∅
      /\ glue_calls
           (snd (get_avro_schema rt_full "ffffffff-ffff-ffff-ffff-ffffffffffff" st'))
         = [ByVersionId "ffffffff-ffff-ffff-ffff-ffffffffffff";
            ByVersionId "ffffffff-ffff-ffff-ffff-ffffffffffff"])
  /\ (exists st',
      get_schema_by_name rt_full "taxi-locations" cold = (Return VNone, st')
      /\ _schema_cache st' = ∅
      /\ glue_calls (snd (get_schema_by_name rt_full "taxi-locations" st'))
         = [ByName "taxi-registry" "taxi-locations";
            ByName "taxi-registry" "taxi-locations"]).
Proof.
  destruct (resolver_failure_not_cached rt_full glue_double cold eq_refl)
    as [Hid Hname].
  split.
  - apply (Hid "ffffffff-ffff-ffff-ffff-ffffffffffff" not_found); reflexivity.
  - apply (Hname "taxi-registry" "taxi-locations" not_found); reflexivity.
Defined.

(** ** The decoder and the registry-envelope path *)

Section Pipeline.

Context (rt : runtime).

Lemma decode_avro_payload_run (payload : list byte) (schema : pyval) (st : state) :
  decode_avro_payload rt payload schema st
  = if FASTAVRO_AVAILABLE rt then
      match schemaless_reader rt payload schema with
      | Return v => (Return v, st)
      | Raise e =>
          (Return (VDict [("raw_bytes", VStr (b64 payload));
                          ("decode_error", VStr (exn_msg e))]),
           printed st [LogAvroDecodeError e])
      end
    else
      (Return (VDict [("raw_bytes", VStr (b64 payload));
                      ("decode_error", VStr "fastavro not available")]), st).
Proof.
  unfold decode_avro_payload, decode_fallback.
  destruct (FASTAVRO_AVAILABLE rt); simpl.
  - unfold try_except, bind, lift, ret, print.
    destruct (schemaless_reader rt payload schema); [done |].
    by rewrite b64_text_run.
  - unfold bind, ret. by rewrite b64_text_run.
Qed.

(** The binary decoder never raises. *)
Lemma decode_avro_payload_returns (payload : list byte) (schema : pyval) (st : state) :
  exists v st', decode_avro_payload rt payload schema st = (Return v, st').
Proof.
  rewrite decode_avro_payload_run.
  destruct (FASTAVRO_AVAILABLE rt); [| eauto].
  destruct (schemaless_reader rt payload schema); eauto.
Qed.

Lemma resolve_and_decode_run (id : string) (payload : list byte) (st : state)
    (schema : pyval) (st1 : state) :
  get_avro_schema rt id st = (Return schema, st1) ->
  resolve_and_decode rt id payload st
  = if py_truthy schema then
      match decode_avro_payload rt payload schema st1 with
      | (Return decoded, st2) =>
          (Return decoded, printed st2 [LogDecoded (dict_keys decoded)])
      | (Raise e, st2) => (Raise e, st2)
      end
    else
      (Return (VDict [("raw_bytes", VStr (b64 payload));
                      ("schema_version_id", VStr id)]), st1).
Proof.
  intros Hschema. unfold resolve_and_decode. unfold bind at 1. rewrite Hschema.
  destruct (py_truthy schema).
  - unfold bind at 1.
    destruct (decode_avro_payload rt payload schema st1) as [[decoded | e] st2];
      [| done].
    by destruct decoded.
  - unfold bind, ret. by rewrite b64_text_run.
Qed.

(** Lines 168-175 never raise. *)
Lemma resolve_and_decode_returns (id : string) (payload : list byte) (st : state) :
  exists v st', resolve_and_decode rt id payload st = (Return v, st').
Proof.
  destruct (get_avro_schema_returns rt id st) as (schema & st1 & Hschema).
  rewrite (resolve_and_decode_run _ _ _ _ _ Hschema).
  destruct (py_truthy schema); [| eauto].
  destruct (decode_avro_payload_returns payload schema st1) as (v & st2 & ->).
  eauto.
Qed.

Lemma has_registry_header_iff (raw : list byte) :
  has_registry_header raw = true <-> 18 < length raw /\ raw !! 0 = Some x03.
Proof.
  unfold has_registry_header. rewrite andb_true_iff, Nat.ltb_lt.
  destruct (raw !! 0) as [first |]; split; intros [Hlen Hfirst];
    split; try done.
  - by rewrite (Byte.byte_dec_bl _ _ Hfirst).
  - apply Byte.byte_dec_lb. congruence.
Qed.

(** Sixteen bytes are always there when the header test passed, so the UUID
    constructor accepts them. *)
Lemma header_uuid_ok (raw : list byte) :
  18 < length raw -> uuid_UUID (py_slice raw 2 18) = Return (py_slice raw 2 18).
Proof.
  intros Hlen. unfold uuid_UUID, py_slice.
  rewrite length_take, length_drop.
  by replace ((18 - 2) `min` (length raw - 2)) with 16 by lia.
Qed.

(** The body of the [try]: the header is read, the payload is inflated when
    the compression byte says so, and lines 168-175 run on the result. *)
Lemma registry_envelope_body_run (raw : list byte) (topic : string) (st : state)
    (c : byte) :
  18 < length raw -> raw !! 1 = Some c ->
  registry_envelope_body rt raw topic st
  = let st0 := printed st [LogDetected topic;
                           LogSchemaVersionId (header_schema_id raw)] in
    if Byte.eqb c x05 then
      match zlib_decompress rt (drop 18 raw) with
      | Return inflated =>
          resolve_and_decode rt (header_schema_id raw) inflated
                             (printed st0 [LogDecompressed])
      | Raise e => (Raise e, st0)
      end
    else resolve_and_decode rt (header_schema_id raw) (drop 18 raw) st0.
Proof.
  intros Hlen Hc. unfold registry_envelope_body, py_index, header_schema_id.
  rewrite Hc, (header_uuid_ok raw Hlen).
  unfold bind at 1 2 3 4, print, ret, lift, printed. simpl.
  rewrite <- !app_assoc. simpl.
  destruct (Byte.eqb c x05).
  - unfold bind at 1 2. destruct (zlib_decompress rt (drop 18 raw)); [| done].
    simpl. by rewrite <- !app_assoc.
  - by unfold bind at 1.
Qed.

End Pipeline.

(** ** Claims about the registry-envelope path *)

(** C4. A message that enters the registry-envelope path (more than 18
    bytes, first byte 0x03) and raises there is answered with the fallback
    mapping [{raw_bytes: base64 of the original bytes, error: message}]; the
    JSON and topic-convention strategies are not run, the cache and the
    registry are not touched.  The only exception that can occur in that path
    is a failed decompression under compression byte 0x05. *)
Theorem envelope_exception_fallback
    (rt : runtime) (raw : list byte) (topic : string) (st : state)
    (e : exn) (st' : state) :
  18 < length raw -> raw !! 0 = Some x03 ->
  registry_envelope_body rt raw topic st = (Raise e, st') ->
  deserialize_message rt raw topic st
  = (Return (VDict [("raw_bytes", VStr (b64 raw)); ("error", VStr (exn_msg e))]),
     printed st [LogDetected topic; LogSchemaVersionId (header_schema_id raw);
                 LogRegistryFailed e])
  /\ raw !! 1 = Some x05
  /\ zlib_decompress rt (drop 18 raw) = Raise e.
Proof.
  intros Hlen Hfirst Hbody.
  assert (Hhdr : has_registry_header raw = true)
    by (by apply has_registry_header_iff).
  destruct (lookup_lt_is_Some_2 raw 1 ltac:(lia)) as [c Hc].
  pose proof Hbody as Hrun.
  rewrite (registry_envelope_body_run rt raw topic st c Hlen Hc) in Hrun.
  simpl in Hrun.
  destruct (Byte.eqb c x05) eqn:Hzlib.
  - apply Byte.byte_dec_bl in Hzlib. subst c.
    destruct (zlib_decompress rt (drop 18 raw)) as [inflated | e0].
    + destruct (resolve_and_decode_returns rt (header_schema_id raw) inflated
                  (printed (printed st [LogDetected topic;
                     LogSchemaVersionId (header_schema_id raw)]) [LogDecompressed]))
        as (v & st2 & Hret).
      congruence.
    + injection Hrun as -> <-.
      split; [| done].
      unfold deserialize_message, registry_envelope_path, try_except.
      rewrite Hhdr, Hbody. unfold bind, print, ret. rewrite b64_text_run.
      unfold printed. simpl. by rewrite <- app_assoc.
  - destruct (resolve_and_decode_returns rt (header_schema_id raw) (drop 18 raw)
                (printed st [LogDetected topic;
                   LogSchemaVersionId (header_schema_id raw)]))
      as (v & st2 & Hret).
    congruence.
Qed.

Lemma envelope_exception_fallback_witness :
  deserialize_message rt_bare (sample_header x05 ++ [xff; xff]) "taxi-trips" cold
  = (Return (VDict [("raw_bytes", VStr "AwUAAQIDBAUGBwgJCgsMDQ4P//8=");
                    ("error", VStr (exn_msg bad_header_check))]),
     printed cold [LogDetected "taxi-trips"; LogSchemaVersionId long_version_id;
                   LogRegistryFailed bad_header_check])
  /\ (sample_header x05 ++ [xff; xff]) !! 1 = Some x05
  /\ zlib_decompress rt_bare (drop 18 (sample_header x05 ++ [xff; xff]))
     = Raise bad_header_check.
Proof.
  apply (envelope_exception_fallback rt_bare (sample_header x05 ++ [xff; xff])
           "taxi-trips" cold bad_header_check
           (printed cold [LogDetected "taxi-trips";
                          LogSchemaVersionId long_version_id])).
  - simpl. lia.
  - reflexivity.
  - reflexivity.
Defined.

(** C5, as the claim states it, fails under compression byte 0x05: with an
    unresolvable schema the [raw_bytes] entry holds the base64 text of the
    inflated payload, not of the bytes that follow the 18-byte header. *)
Lemma unresolved_schema_fallback_counterexample :
  fst (get_avro_schema rt_bare
         (header_schema_id (sample_header x05 ++ deflated_02))
         (printed cold [LogDetected "taxi-trips";
                        LogSchemaVersionId long_version_id; LogDecompressed]))
  = Return VNone
  /\ fst (deserialize_message rt_bare (sample_header x05 ++ deflated_02)
            "taxi-trips" cold)
     = Return (VDict [("raw_bytes", VStr "Ag==");
                      ("schema_version_id", VStr long_version_id)])
  /\ b64 (drop 18 (sample_header x05 ++ deflated_02)) = "eJxjAgAAAwAD"
  /\ fst (deserialize_message rt_bare (sample_header x05 ++ deflated_02)
            "taxi-trips" cold)
     <> Return (VDict [("raw_bytes",
                        VStr (b64 (drop 18 (sample_header x05 ++ deflated_02))));
                       ("schema_version_id", VStr long_version_id)]).
Proof. repeat split; try reflexivity. vm_compute. discriminate. Qed.

(** C5, amended.  For a message with a registry header whose schema cannot
    be resolved (the resolver returns [None], or any other false value), the
    result is the mapping with exactly the keys [raw_bytes] and
    [schema_version_id]: the first holds the base64 text of the Avro payload,
    which is the bytes after the 18-byte header, inflated first when the
    compression byte is 0x05; the second holds the stringified UUID.  The
    final state is the one the resolver left: nothing is decoded and no
    further strategy runs. *)
Theorem unresolved_schema_fallback
    (rt : runtime) (raw : list byte) (topic : string) (st : state)
    (c : byte) (payload : list byte) (schema : pyval) (st2 : state) :
  18 < length raw -> raw !! 0 = Some x03 -> raw !! 1 = Some c ->
  (if Byte.eqb c x05 then zlib_decompress rt (drop 18 raw)
   else Return (drop 18 raw)) = Return payload ->
  get_avro_schema rt (header_schema_id raw)
    (printed st ([LogDetected topic; LogSchemaVersionId (header_schema_id raw)]
                 ++ if Byte.eqb c x05 then [LogDecompressed] else []))
  = (Return schema, st2) ->
  py_truthy schema = false ->
  deserialize_message rt raw topic st
  = (Return (VDict [("raw_bytes", VStr (b64 payload));
                    ("schema_version_id", VStr (header_schema_id raw))]), st2).
Proof.
  intros Hlen Hfirst Hc Hpayload Hschema Hfalsy.
  assert (Hhdr : has_registry_header raw = true)
    by (by apply has_registry_header_iff).
  unfold deserialize_message, registry_envelope_path, try_except.
  rewrite Hhdr, (registry_envelope_body_run rt raw topic st c Hlen Hc). simpl.
  destruct (Byte.eqb c x05).
  - rewrite Hpayload.
    unfold printed in *. simpl in *. rewrite <- app_assoc. simpl.
    by rewrite (resolve_and_decode_run rt _ _ _ _ _ Hschema), Hfalsy.
  - injection Hpayload as <-.
    by rewrite (resolve_and_decode_run rt _ _ _ _ _ Hschema), Hfalsy.
Qed.

Lemma unresolved_schema_fallback_witness :
  deserialize_message rt_bare (sample_header x05 ++ deflated_02) "taxi-trips" cold
  = (Return (VDict [("raw_bytes", VStr "Ag==");
                    ("schema_version_id", VStr long_version_id)]),
     printed cold [LogDetected "taxi-trips"; LogSchemaVersionId long_version_id;
                   LogDecompressed; LogGlueUnavailable]).
Proof.
  apply (unresolved_schema_fallback rt_bare (sample_header x05 ++ deflated_02)
           "taxi-trips" cold x05 [x02] VNone).
  - simpl. lia.
  - reflexivity.
  - reflexivity.
  - reflexivity.
  - reflexivity.
  - reflexivity.
Defined.

(** C10. Under any compression byte other than 0x05 (0x00 and every
    unspecified code alike) the bytes after the 18-byte header go unchanged
    to schema resolution and binary decoding: [get_avro_schema] is called
    with the identifier of the header right after the two lines of the
    header are printed (no decompression line in between), and the answer is
    what [schemaless_reader] makes of exactly [raw_bytes[18:]] under the
    schema it returned, or the fallback mapping with the base64 text of
    exactly these bytes.  zlib is not consulted: the outcome is the same with
    any other zlib in its place. *)
Theorem compression_other_than_zlib_is_identity
    (rt : runtime) (raw : list byte) (topic : string) (st : state) (c : byte) :
  18 < length raw -> raw !! 0 = Some x03 -> raw !! 1 = Some c -> c <> x05 ->
  (exists schema st2,
      get_avro_schema rt (header_schema_id raw)
        (printed st [LogDetected topic; LogSchemaVersionId (header_schema_id raw)])
      = (Return schema, st2)
      /\ deserialize_message rt raw topic st
         = if py_truthy schema then
             if FASTAVRO_AVAILABLE rt then
               match schemaless_reader rt (drop 18 raw) schema with
               | Return v => (Return v, printed st2 [LogDecoded (dict_keys v)])
               | Raise e =>
                   (Return (VDict [("raw_bytes", VStr (b64 (drop 18 raw)));
                                   ("decode_error", VStr (exn_msg e))]),
                    printed st2 [LogAvroDecodeError e;
                                 LogDecoded (Some ["raw_bytes"; "decode_error"])])
               end
             else
               (Return (VDict [("raw_bytes", VStr (b64 (drop 18 raw)));
                               ("decode_error", VStr "fastavro not available")]),
                printed st2 [LogDecoded (Some ["raw_bytes"; "decode_error"])])
           else
             (Return (VDict [("raw_bytes", VStr (b64 (drop 18 raw)));
                             ("schema_version_id", VStr (header_schema_id raw))]),
              st2))
  /\ forall z,
      deserialize_message (with_zlib rt z) raw topic st
      = deserialize_message rt raw topic st.
Proof.
  intros Hlen Hfirst Hc Hother.
  assert (Hhdr : has_registry_header raw = true)
    by (by apply has_registry_header_iff).
  assert (Hneq : Byte.eqb c x05 = false).
  { destruct (Byte.eqb c x05) eqn:Heq; [| done].
    by apply Byte.byte_dec_bl in Heq. }
  assert (Hrun : forall rt',
    deserialize_message rt' raw topic st
    = resolve_and_decode rt' (header_schema_id raw) (drop 18 raw)
        (printed st [LogDetected topic;
                     LogSchemaVersionId (header_schema_id raw)])).
  { intros rt'.
    unfold deserialize_message, registry_envelope_path, try_except.
    rewrite Hhdr, (registry_envelope_body_run rt' raw topic st c Hlen Hc). simpl.
    rewrite Hneq.
    by destruct (resolve_and_decode_returns rt' (header_schema_id raw)
                   (drop 18 raw)
                   (printed st [LogDetected topic;
                      LogSchemaVersionId (header_schema_id raw)]))
      as (v & st2 & ->). }
  split; [| intros z; by rewrite !Hrun].
  destruct (get_avro_schema_returns rt (header_schema_id raw)
              (printed st [LogDetected topic;
                           LogSchemaVersionId (header_schema_id raw)]))
    as (schema & st2 & Hschema).
  exists schema, st2. split; [exact Hschema |].
  rewrite Hrun, (resolve_and_decode_run rt _ _ _ _ _ Hschema).
  destruct (py_truthy schema); [| done].
  rewrite decode_avro_payload_run.
  destruct (FASTAVRO_AVAILABLE rt); [| done].
  destruct (schemaless_reader rt (drop 18 raw) schema); [done |].
  unfold printed. simpl. by rewrite <- app_assoc.
Qed.

Lemma compression_other_than_zlib_is_identity_witness :
  (exists schema st2,
      get_avro_schema rt_full (header_schema_id (sample_header x07 ++ [x04]))
        (printed cold [LogDetected "taxi-trips";
                       LogSchemaVersionId
                         (header_schema_id (sample_header x07 ++ [x04]))])
      = (Return schema, st2)
      /\ deserialize_message rt_full (sample_header x07 ++ [x04]) "taxi-trips" cold
         = if py_truthy schema then
             if FASTAVRO_AVAILABLE rt_full then
               match schemaless_reader rt_full
                       (drop 18 (sample_header x07 ++ [x04])) schema with
               | Return v => (Return v, printed st2 [LogDecoded (dict_keys v)])
               | Raise e =>
                   (Return (VDict [("raw_bytes",
                                    VStr (b64 (drop 18 (sample_header x07 ++ [x04]))));
                                   ("decode_error", VStr (exn_msg e))]),
                    printed st2 [LogAvroDecodeError e;
                                 LogDecoded (Some ["raw_bytes"; "decode_error"])])
               end
             else
               (Return (VDict [("raw_bytes",
                                VStr (b64 (drop 18 (sample_header x07 ++ [x04]))));
                               ("decode_error", VStr "fastavro not available")]),
                printed st2 [LogDecoded (Some ["raw_bytes"; "decode_error"])])
           else
             (Return (VDict [("raw_bytes",
                              VStr (b64 (drop 18 (sample_header x07 ++ [x04]))));
                             ("schema_version_id",
                              VStr (header_schema_id (sample_header x07 ++ [x04])))]),
              st2))
  /\ forall z,
      deserialize_message (with_zlib rt_full z) (sample_header x07 ++ [x04])
        "taxi-trips" cold
      = deserialize_message rt_full (sample_header x07 ++ [x04]) "taxi-trips" cold.
Proof.
  apply (compression_other_than_zlib_is_identity rt_full
           (sample_header x07 ++ [x04]) "taxi-trips" cold x07).
  - simpl. lia.
  - reflexivity.
  - reflexivity.
  - discriminate.
Defined.

(** Under the unassigned compression byte 0x07 the payload 0x04 is read as it
    stands: under the schema ["long"] it is the integer 2. *)
Example unknown_compression_reads_payload :
  fst (deserialize_message rt_full (sample_header x07 ++ [x04]) "taxi-trips" cold)
  = Return (VInt 2).
Proof. reflexivity. Qed.

(** ** The path without a registry header *)

Lemma plain_extension_refl (st : state) : plain_extension st st.
Proof. exists [], []. by rewrite !app_nil_r. Qed.

Lemma plain_extension_trans (st1 st2 st3 : state) :
  plain_extension st1 st2 -> plain_extension st2 st3 -> plain_extension st1 st3.
Proof.
  intros (l1 & r1 & Hl1 & Fl1 & Hr1 & Fr1) (l2 & r2 & Hl2 & Fl2 & Hr2 & Fr2).
  exists (l1 ++ l2), (r1 ++ r2).
  rewrite Hl2, Hl1, Hr2, Hr1, <- !app_assoc.
  repeat split; by apply Forall_app.
Qed.

Lemma plain_only_ret {A} (a : A) : plain_only (ret a).
Proof. intros st. apply plain_extension_refl. Qed.

Lemma plain_only_lift {A} (o : outcome A) : plain_only (lift o).
Proof. intros st. apply plain_extension_refl. Qed.

Lemma plain_only_print (l : log_line) :
  envelope_line l = false -> plain_only (print l).
Proof.
  intros Hl st. exists [l], []. simpl. rewrite app_nil_r.
  repeat split; by repeat constructor.
Qed.

Lemma plain_only_bind {A B} (m : M A) (k : A -> M B) :
  plain_only m -> (forall a, plain_only (k a)) -> plain_only (bind m k).
Proof.
  intros Hm Hk st. unfold bind. specialize (Hm st).
  destruct (m st) as [[a | e] st1]; simpl in *; [| done].
  eapply plain_extension_trans; [exact Hm | apply Hk].
Qed.

Lemma plain_only_try_except {A} (body : M A) (handler : exn -> M A) :
  plain_only body -> (forall e, plain_only (handler e)) ->
  plain_only (try_except body handler).
Proof.
  intros Hm Hk st. unfold try_except. specialize (Hm st).
  destruct (body st) as [[a | e] st1]; simpl in *; [done |].
  eapply plain_extension_trans; [exact Hm | apply Hk].
Qed.

Lemma plain_only_try_except_only {A} (body : M A) (classes : exn -> bool)
    (handler : M A) :
  plain_only body -> plain_only handler ->
  plain_only (try_except_only body classes handler).
Proof.
  intros Hm Hk st. unfold try_except_only. specialize (Hm st).
  destruct (body st) as [[a | e] st1]; simpl in *; [done |].
  destruct (classes e); [| done].
  eapply plain_extension_trans; [exact Hm | apply Hk].
Qed.

Lemma plain_only_cache_lookup (key : string) : plain_only (cache_lookup key).
Proof. intros st. apply plain_extension_refl. Qed.

Lemma plain_only_cache_store (key : string) (v : pyval) :
  plain_only (cache_store key v).
Proof. intros st. exists [], []. simpl. by rewrite !app_nil_r. Qed.

Lemma plain_only_get_schema_version (client : glue) (registry name : string) :
  plain_only (get_schema_version client (ByName registry name)).
Proof.
  intros st. exists [], [ByName registry name]. simpl. rewrite app_nil_r.
  repeat split; by repeat constructor.
Qed.

Ltac plain_step :=
  first
    [ apply plain_only_ret | apply plain_only_lift
    | apply plain_only_cache_lookup | apply plain_only_cache_store
    | apply plain_only_get_schema_version
    | apply plain_only_print; reflexivity
    | apply plain_only_bind; [| intros ?]
    | apply plain_only_try_except_only
    | apply plain_only_try_except; [| intros ?] ].

Section PlainPath.

Context (rt : runtime).

Lemma plain_only_get_schema_by_name (name : string) :
  plain_only (get_schema_by_name rt name).
Proof.
  unfold get_schema_by_name, fetch_and_parse.
  apply plain_only_bind; [plain_step |]. intros [cached |]; [plain_step |].
  destruct (glue_client rt) as [client |]; [| repeat plain_step].
  destruct (GLUE_REGISTRY_NAME rt) as [registry |]; [| repeat plain_step].
  destruct (str_truthy registry); [| repeat plain_step].
  repeat plain_step. destruct (FASTAVRO_AVAILABLE rt); plain_step.
Qed.

Lemma plain_only_decode_avro_payload (payload : list byte) (schema : pyval) :
  plain_only (decode_avro_payload rt payload schema).
Proof.
  unfold decode_avro_payload, decode_fallback, b64_text.
  destruct (FASTAVRO_AVAILABLE rt); simpl; repeat plain_step.
Qed.

Lemma plain_only_json_strategy (raw : list byte) :
  plain_only (json_strategy rt raw).
Proof. unfold json_strategy. repeat plain_step. Qed.

Lemma plain_only_topic_strategy (raw : list byte) (topic : string) :
  plain_only (topic_strategy rt raw topic).
Proof.
  unfold topic_strategy.
  destruct (TOPIC_SCHEMA_MAP !! topic) as [schema_name |]; [| plain_step].
  destruct (str_truthy schema_name && FASTAVRO_AVAILABLE rt); [| plain_step].
  apply plain_only_bind; [apply plain_only_get_schema_by_name |].
  intros schema. destruct (py_truthy schema); [| plain_step].
  apply plain_only_bind; [plain_step |]. intros _.
  apply plain_only_bind; [apply plain_only_decode_avro_payload |].
  intros decoded.
  destruct (is_dict decoded && negb (dict_contains "decode_error" decoded));
    repeat plain_step.
Qed.

Lemma plain_only_plain_path (raw : list byte) (topic : string) :
  plain_only (plain_path rt raw topic).
Proof.
  unfold plain_path, b64_text.
  apply plain_only_bind; [apply plain_only_json_strategy |].
  intros [v |]; [plain_step |].
  apply plain_only_bind; [apply plain_only_topic_strategy |].
  intros [v |]; repeat plain_step.
Qed.

(** What lines 180-184 do with the input. *)
Lemma json_strategy_run (raw : list byte) (st : state) :
  json_strategy rt raw st
  = if utf8_valid raw then
      match json_loads rt (string_of_list_byte raw) with
      | Return v => (Return (Some v), st)
      | Raise e => if json_or_unicode_error e then (Return None, st)
                   else (Raise e, st)
      end
    else (Return None, st).
Proof.
  unfold json_strategy, try_except_only, bind, lift, ret, bytes_decode_utf8.
  destruct (utf8_valid raw); [| done].
  by destruct (json_loads rt (string_of_list_byte raw)).
Qed.

Lemma no_header (raw : list byte) :
  length raw <= 18 \/ raw !! 0 <> Some x03 -> has_registry_header raw = false.
Proof.
  intros Hno. destruct (has_registry_header raw) eqn:Hhdr; [| done].
  apply has_registry_header_iff in Hhdr as [Hlen Hfirst].
  destruct Hno; [lia | done].
Qed.

End PlainPath.

(** ** What follows the JSON step *)

Section AfterJson.

Context (rt : runtime).

(** The JSON step falls through when the input is not UTF-8, or when
    [json.loads] raises one of the two classes caught at line 183. *)
Lemma json_strategy_falls_through (raw : list byte) (st : state) :
  utf8_valid raw = false
  \/ (exists e, json_loads rt (string_of_list_byte raw) = Raise e
                /\ json_or_unicode_error e = true) ->
  json_strategy rt raw st = (Return None, st).
Proof.
  intros Hjson. rewrite json_strategy_run.
  destruct Hjson as [-> | (e & -> & ->)]; [done |].
  by destruct (utf8_valid raw).
Qed.

(** Lines 186-200 after a JSON step that fell through. *)
Lemma plain_path_after_json (raw : list byte) (topic : string) (st : state) :
  json_strategy rt raw st = (Return None, st) ->
  plain_path rt raw topic st
  = match topic_strategy rt raw topic st with
    | (Return (Some v), st') => (Return v, st')
    | (Return None, st') =>
        (Return (VDict [("raw_bytes", VStr (b64 raw))]), st')
    | (Raise e, st') => (Raise e, st')
    end.
Proof.
  intros Hjson. unfold plain_path. unfold bind at 1. rewrite Hjson.
  unfold bind at 1.
  destruct (topic_strategy rt raw topic st) as [[[v |] | e] st']; [done | | done].
  unfold bind, ret. by rewrite b64_text_run.
Qed.

(** When the topic-convention strategy yields nothing and leaves the state
    alone, the JSON step alone decides the outcome. *)
Lemma plain_path_without_topic_decode (raw : list byte) (topic : string)
    (st : state) :
  topic_strategy rt raw topic st = (Return None, st) ->
  plain_path rt raw topic st
  = if utf8_valid raw then
      match json_loads rt (string_of_list_byte raw) with
      | Return v => (Return v, st)
      | Raise e =>
          if json_or_unicode_error e
          then (Return (VDict [("raw_bytes", VStr (b64 raw))]), st)
          else (Raise e, st)
      end
    else (Return (VDict [("raw_bytes", VStr (b64 raw))]), st).
Proof.
  intros Htopic.
  assert (Hfall : json_strategy rt raw st = (Return None, st) ->
    plain_path rt raw topic st
    = (Return (VDict [("raw_bytes", VStr (b64 raw))]), st)).
  { intros Hjson. by rewrite (plain_path_after_json raw topic st Hjson), Htopic. }
  pose proof (json_strategy_run rt raw st) as Hjson.
  destruct (utf8_valid raw); [| by apply Hfall].
  destruct (json_loads rt (string_of_list_byte raw)) as [v | e].
  - unfold plain_path. unfold bind at 1. by rewrite Hjson.
  - destruct (json_or_unicode_error e); [by apply Hfall |].
    unfold plain_path. unfold bind at 1. by rewrite Hjson.
Qed.

(** The topic-convention strategy yields nothing, or runs the reader on the
    whole input under the schema that [get_schema_by_name] returned for the
    name the topic table gives: a mapping without [decode_error] is handed
    on, and a value that is not a mapping makes line 197 raise. *)
Lemma topic_strategy_shape (raw : list byte) (topic : string) (st : state) :
  exists r st',
    topic_strategy rt raw topic st = (r, st')
    /\ (r = Return None
        \/ exists name schema st1 v,
             TOPIC_SCHEMA_MAP !! topic = Some name
             /\ get_schema_by_name rt name st = (Return schema, st1)
             /\ py_truthy schema = true
             /\ schemaless_reader rt raw schema = Return v
             /\ ((r = Return (Some v)
                  /\ is_dict v = true /\ dict_contains "decode_error" v = false)
                 \/ (r = Raise (no_attribute v "get") /\ is_dict v = false))).
Proof.
  unfold topic_strategy.
  destruct (TOPIC_SCHEMA_MAP !! topic) as [name |] eqn:Htopic;
    [| unfold ret; eauto].
  destruct (str_truthy name && FASTAVRO_AVAILABLE rt);
    [| unfold ret; eauto].
  unfold bind at 1.
  destruct (get_schema_by_name_returns rt name st) as (schema & st1 & Hschema).
  rewrite Hschema.
  destruct (py_truthy schema) eqn:Htruthy; [| unfold ret; eauto].
  unfold bind at 1, print at 1. unfold bind at 1.
  rewrite decode_avro_payload_run.
  destruct (FASTAVRO_AVAILABLE rt);
    [| unfold bind, lift, print, ret; simpl; eauto].
  destruct (schemaless_reader rt raw schema) as [v | e] eqn:Hread;
    [| unfold bind, lift, print, ret; simpl; eauto].
  destruct (is_dict v && negb (dict_contains "decode_error" v)) eqn:Hok.
  - apply andb_true_iff in Hok as [Hdict Hnoerr].
    apply negb_true_iff in Hnoerr.
    destruct v; try discriminate.
    unfold bind, lift, print, ret. simpl.
    do 2 eexists. split; [reflexivity |]. right.
    exists name, schema, st1, (VDict items).
    repeat (split; [done |]). left. by repeat split.
  - destruct v; unfold bind, lift, print, ret; simpl;
      do 2 eexists;
      (split; [reflexivity |]);
      first [ by left
            | right;
              match type of Hread with
              | _ = Return ?v0 => exists name, schema, st1, v0
              end;
              repeat (split; [done |]); right; by split ].
Qed.

End AfterJson.

(** ** Claims about the path without a registry header *)

(** C3. A byte sequence of at most 18 bytes, or whose first byte is not
    0x03, does not enter the registry-envelope path; the JSON strategy runs
    at once, on the whole input.  When the input is UTF-8 text that
    [json.loads] accepts, the parsed value is the answer and the state is
    left as it was; when [json.loads] raises something other than the two
    classes caught at line 183, that exception is the outcome; when the
    input is not UTF-8 or [json.loads] raises a caught class, the answer is
    the bare [raw_bytes] mapping of the whole input, or comes from the reader
    run on the whole input under the schema resolved by the topic's name.
    In every case none of the lines of the envelope path is printed and no
    request by version identifier is sent. *)
Theorem no_header_runs_json_first
    (rt : runtime) (raw : list byte) (topic : string) (st : state) :
  length raw <= 18 \/ raw !! 0 <> Some x03 ->
  (forall v,
      utf8_valid raw = true ->
      json_loads rt (string_of_list_byte raw) = Return v ->
      deserialize_message rt raw topic st = (Return v, st))
  /\ (forall e,
        utf8_valid raw = true ->
        json_loads rt (string_of_list_byte raw) = Raise e ->
        json_or_unicode_error e = false ->
        deserialize_message rt raw topic st = (Raise e, st))
  /\ (utf8_valid raw = false
      \/ (exists e, json_loads rt (string_of_list_byte raw) = Raise e
                    /\ json_or_unicode_error e = true) ->
      (exists st',
          deserialize_message rt raw topic st
          = (Return (VDict [("raw_bytes", VStr (b64 raw))]), st'))
      \/ exists name schema st1 v st',
           TOPIC_SCHEMA_MAP !! topic = Some name
           /\ get_schema_by_name rt name st = (Return schema, st1)
           /\ py_truthy schema = true
           /\ schemaless_reader rt raw schema = Return v
           /\ ((deserialize_message rt raw topic st = (Return v, st')
                /\ is_dict v = true /\ dict_contains "decode_error" v = false)
               \/ (deserialize_message rt raw topic st
                   = (Raise (no_attribute v "get"), st')
                   /\ is_dict v = false)))
  /\ exists lines reqs,
      stdout (snd (deserialize_message rt raw topic st)) = stdout st ++ lines
      /\ Forall (fun l => envelope_line l = false) lines
      /\ glue_calls (snd (deserialize_message rt raw topic st))
         = glue_calls st ++ reqs
      /\ Forall (fun r => by_name_request r = true) reqs.
Proof.
  intros Hno. unfold deserialize_message. rewrite (no_header raw Hno).
  repeat split.
  - intros v Hutf8 Hjson. unfold plain_path. unfold bind at 1.
    by rewrite json_strategy_run, Hutf8, Hjson.
  - intros e Hutf8 Hjson Hclass. unfold plain_path. unfold bind at 1.
    by rewrite json_strategy_run, Hutf8, Hjson, Hclass.
  - intros Hjson.
    rewrite (plain_path_after_json rt raw topic st
               (json_strategy_falls_through rt raw st Hjson)).
    destruct (topic_strategy_shape rt raw topic st)
      as (r & st' & -> & [-> | (name & schema & st1 & v & Htopic & Hschema
                                & Htruthy & Hread
                                & [(-> & Hdict & Herr) | (-> & Hdict)])]).
    + left. eauto.
    + right. exists name, schema, st1, v, st'.
      repeat (split; [done |]). left. by repeat split.
    + right. exists name, schema, st1, v, st'.
      repeat (split; [done |]). right. by split.
  - apply plain_only_plain_path.
Qed.

Lemma no_header_runs_json_first_witness :
  (forall v,
      utf8_valid [x03; x00; x02] = true ->
      json_loads rt_full (string_of_list_byte [x03; x00; x02]) = Return v ->
      deserialize_message rt_full [x03; x00; x02] "orders" cold = (Return v, cold))
  /\ (forall e,
        utf8_valid [x03; x00; x02] = true ->
        json_loads rt_full (string_of_list_byte [x03; x00; x02]) = Raise e ->
        json_or_unicode_error e = false ->
        deserialize_message rt_full [x03; x00; x02] "orders" cold = (Raise e, cold))
  /\ (utf8_valid [x03; x00; x02] = false
      \/ (exists e,
             json_loads rt_full (string_of_list_byte [x03; x00; x02]) = Raise e
             /\ json_or_unicode_error e = true) ->
      (exists st',
          deserialize_message rt_full [x03; x00; x02] "orders" cold
          = (Return (VDict [("raw_bytes", VStr (b64 [x03; x00; x02]))]), st'))
      \/ exists name schema st1 v st',
           TOPIC_SCHEMA_MAP !! "orders" = Some name
           /\ get_schema_by_name rt_full name cold = (Return schema, st1)
           /\ py_truthy schema = true
           /\ schemaless_reader rt_full [x03; x00; x02] schema = Return v
           /\ ((deserialize_message rt_full [x03; x00; x02] "orders" cold
                = (Return v, st')
                /\ is_dict v = true /\ dict_contains "decode_error" v = false)
               \/ (deserialize_message rt_full [x03; x00; x02] "orders" cold
                   = (Raise (no_attribute v "get"), st')
                   /\ is_dict v = false)))
  /\ exists lines reqs,
      stdout (snd (deserialize_message rt_full [x03; x00; x02] "orders" cold))
      = stdout cold ++ lines
      /\ Forall (fun l => envelope_line l = false) lines
      /\ glue_calls (snd (deserialize_message rt_full [x03; x00; x02]
                            "orders" cold))
         = glue_calls cold ++ reqs
      /\ Forall (fun r => by_name_request r = true) reqs.
Proof.
  apply (no_header_runs_json_first rt_full [x03; x00; x02] "orders" cold).
  left. simpl. lia.
Defined.

(** Three bytes that start with 0x03 are too short for a header: on a topic
    without a schema name the answer is the bare [raw_bytes] mapping, and
    nothing is printed or requested. *)
Example short_message_is_not_an_envelope :
  deserialize_message rt_full [x03; x00; x02] "orders" cold
  = (Return (VDict [("raw_bytes", VStr "AwAC")]), cold).
Proof. reflexivity. Qed.

(** C8. On a topic without an entry in the topic-to-schema-name table, a
    byte sequence without a registry header is answered by the JSON step
    alone.  When the input is not UTF-8, or [json.loads] rejects its text
    with one of the two classes caught at line 183, the answer is the
    mapping whose only key is [raw_bytes], holding the base64 text of the
    whole input, and nothing else happens.  When [json.loads] fails in any
    other way, the exception leaves the function: the text of three thousand
    opening brackets is not JSON, and the [RecursionError] it provokes is
    the outcome of the call. *)
Theorem unmapped_topic_outcome
    (rt : runtime) (raw : list byte) (topic : string) (st : state) :
  length raw <= 18 \/ raw !! 0 <> Some x03 ->
  TOPIC_SCHEMA_MAP !! topic = None ->
  deserialize_message rt raw topic st
  = if utf8_valid raw then
      match json_loads rt (string_of_list_byte raw) with
      | Return v => (Return v, st)
      | Raise e =>
          if json_or_unicode_error e
          then (Return (VDict [("raw_bytes", VStr (b64 raw))]), st)
          else (Raise e, st)
      end
    else (Return (VDict [("raw_bytes", VStr (b64 raw))]), st).
Proof.
  intros Hno Htopic. unfold deserialize_message. rewrite (no_header raw Hno).
  apply plain_path_without_topic_decode.
  unfold topic_strategy. by rewrite Htopic.
Qed.

Lemma unmapped_topic_outcome_witness :
  deserialize_message rt_deep deep_brackets "orders" cold
  = (Raise recursion_error, cold).
Proof.
  apply (unmapped_topic_outcome rt_deep deep_brackets "orders" cold).
  - right. discriminate.
  - reflexivity.
Defined.

(** On the same topic, bytes that are not UTF-8 get the bare mapping. *)
Example unmapped_topic_binary_input :
  deserialize_message rt_full [xff; xfe] "orders" cold
  = (Return (VDict [("raw_bytes", VStr "//4=")]), cold).
Proof. reflexivity. Qed.

(** C9. A byte sequence without a registry header that decodes as UTF-8
    and parses as JSON is answered with the parsed value itself; the state is
    left as it was, so no schema is resolved, by identifier or by name, and
    the registry is not called. *)
Theorem json_returned_without_resolver
    (rt : runtime) (raw : list byte) (topic : string) (st : state) (v : pyval) :
  length raw <= 18 \/ raw !! 0 <> Some x03 ->
  utf8_valid raw = true ->
  json_loads rt (string_of_list_byte raw) = Return v ->
  deserialize_message rt raw topic st = (Return v, st).
Proof.
  intros Hno Hutf8 Hjson. unfold deserialize_message.
  rewrite (no_header raw Hno). unfold plain_path. unfold bind at 1.
  by rewrite json_strategy_run, Hutf8, Hjson.
Qed.

Lemma json_returned_without_resolver_witness :
  deserialize_message rt_full (list_byte_of_string text_a1) "taxi-trips" cold
  = (Return (VDict [("a", VInt 1)]), cold).
Proof.
  apply (json_returned_without_resolver rt_full (list_byte_of_string text_a1)
           "taxi-trips" cold).
  - left. simpl. lia.
  - reflexivity.
  - reflexivity.
Defined.

(** ** What the pipeline returns, and when it raises *)

Section Outcomes.

Context (rt : runtime).




End Outcomes.

(** The registry-envelope path never raises.  It returns a mapping that
    starts with [raw_bytes], or what the reader made of the payload of the
    message under the schema that [get_avro_schema] returned for the
    identifier of the header. *)
Lemma registry_envelope_path_shape (rt : runtime) (raw : list byte)
    (topic : string) (st : state) (c : byte) :
  18 < length raw -> raw !! 1 = Some c ->
  exists v st',
    registry_envelope_path rt raw topic st = (Return v, st')
    /\ ((exists data rest, v = VDict (("raw_bytes", VStr (b64 data)) :: rest))
        \/ exists payload schema st2,
             (if Byte.eqb c x05 then zlib_decompress rt (drop 18 raw)
              else Return (drop 18 raw)) = Return payload
             /\ get_avro_schema rt (header_schema_id raw)
                  (printed st
                     ([LogDetected topic;
                       LogSchemaVersionId (header_schema_id raw)]
                      ++ if Byte.eqb c x05 then [LogDecompressed] else []))
                = (Return schema, st2)
             /\ py_truthy schema = true
             /\ schemaless_reader rt payload schema = Return v).
Proof.
  intros Hlen Hc.
  unfold registry_envelope_path, try_except.
  rewrite (registry_envelope_body_run rt raw topic st c Hlen Hc). simpl.
  assert (Hcases : forall payload st1,
    exists v st',
      resolve_and_decode rt (header_schema_id raw) payload st1 = (Return v, st')
      /\ ((exists data rest, v = VDict (("raw_bytes", VStr (b64 data)) :: rest))
          \/ exists schema st2,
               get_avro_schema rt (header_schema_id raw) st1 = (Return schema, st2)
               /\ py_truthy schema = true
               /\ schemaless_reader rt payload schema = Return v)).
  { intros payload st1.
    destruct (get_avro_schema_returns rt (header_schema_id raw) st1)
      as (schema & st2 & Hschema).
    rewrite (resolve_and_decode_run rt _ _ _ _ _ Hschema).
    destruct (py_truthy schema) eqn:Htruthy; [| eauto 8].
    rewrite decode_avro_payload_run.
    destruct (FASTAVRO_AVAILABLE rt); [| eauto 8].
    destruct (schemaless_reader rt payload schema) as [v | e] eqn:Hread;
      [| eauto 8].
    do 2 eexists. split; [reflexivity |]. right. eauto. }
  destruct (Byte.eqb c x05).
  - destruct (zlib_decompress rt (drop 18 raw)) as [inflated | e].
    + destruct (Hcases inflated
                  (printed (printed st [LogDetected topic;
                     LogSchemaVersionId (header_schema_id raw)]) [LogDecompressed]))
        as (v & st' & -> & [Hraw | (schema & st2 & Hschema & Htruthy & Hread)]);
        [eauto |].
      do 2 eexists. split; [reflexivity |]. right.
      exists inflated, schema, st2. repeat split; try done.
      unfold printed in *. simpl in *. by rewrite <- app_assoc in Hschema.
    + unfold bind, print, ret. rewrite b64_text_run. eauto 8.
  - destruct (Hcases (drop 18 raw)
                (printed st [LogDetected topic;
                   LogSchemaVersionId (header_schema_id raw)]))
      as (v & st' & -> & [Hraw | (schema & st2 & Hschema & Htruthy & Hread)]);
      [eauto |].
    do 2 eexists. split; [reflexivity |]. right.
    exists (drop 18 raw), schema, st2. by repeat split.
Qed.

(** C1, as the claim states it, fails on both paths that decode.  On the
    registry-envelope path the reader's value is returned whatever it is
    (line 172 prints [non-dict] for such a value and line 173 returns it):
    under the schema ["long"] the payload 0x04 gives the integer 2.  On the
    JSON path line 182 returns what [json.loads] gives: the text [null] is
    returned as [None].  Neither value is a mapping, and neither carries
    [raw_bytes]. *)
Lemma decoded_record_mapping_counterexample :
  fst (deserialize_message rt_full (sample_header x00 ++ [x04]) "taxi-trips" cold)
  = Return (VInt 2)
  /\ is_dict (VInt 2) = false
  /\ dict_contains "raw_bytes" (VInt 2) = false
  /\ fst (deserialize_message rt_bare (list_byte_of_string text_null)
            "taxi-trips" cold)
     = Return VNone
  /\ is_dict VNone = false
  /\ dict_contains "raw_bytes" VNone = false.
Proof. repeat split; reflexivity. Qed.

(** C1, amended.  Whenever [deserialize_message] returns, the value is one
    of four things.  A fallback mapping whose first key is [raw_bytes],
    holding base64 text.  Without a header: exactly what [json.loads] made of
    the whole input (any JSON value, [None] and values that are not mappings
    included).  With a header: exactly what the reader made of the payload
    (the bytes after the 18-byte header, inflated first under compression
    byte 0x05) under the schema that [get_avro_schema] returned for the
    identifier of the header, any Avro value.  Without a header, on a mapped
    topic: exactly what the reader made of the whole input under the schema
    that [get_schema_by_name] returned for the name of the topic, and then a
    mapping without [decode_error]. *)
Theorem decoded_record_shape
    (rt : runtime) (raw : list byte) (topic : string) (st : state)
    (v : pyval) (st' : state) :
  deserialize_message rt raw topic st = (Return v, st') ->
  (exists data rest, v = VDict (("raw_bytes", VStr (b64 data)) :: rest))
  \/ (has_registry_header raw = false /\ utf8_valid raw = true
      /\ json_loads rt (string_of_list_byte raw) = Return v)
  \/ (has_registry_header raw = true
      /\ exists c payload schema st2,
           raw !! 1 = Some c
           /\ (if Byte.eqb c x05 then zlib_decompress rt (drop 18 raw)
               else Return (drop 18 raw)) = Return payload
           /\ get_avro_schema rt (header_schema_id raw)
                (printed st
                   ([LogDetected topic;
                     LogSchemaVersionId (header_schema_id raw)]
                    ++ if Byte.eqb c x05 then [LogDecompressed] else []))
              = (Return schema, st2)
           /\ py_truthy schema = true
           /\ schemaless_reader rt payload schema = Return v)
  \/ (has_registry_header raw = false
      /\ exists name schema st1,
           TOPIC_SCHEMA_MAP !! topic = Some name
           /\ get_schema_by_name rt name st = (Return schema, st1)
           /\ py_truthy schema = true
           /\ schemaless_reader rt raw schema = Return v
           /\ is_dict v = true /\ dict_contains "decode_error" v = false).
Proof.
  unfold deserialize_message.
  destruct (has_registry_header raw) eqn:Hhdr.
  - apply has_registry_header_iff in Hhdr as [Hlen _].
    destruct (lookup_lt_is_Some_2 raw 1 ltac:(lia)) as [c Hc].
    destruct (registry_envelope_path_shape rt raw topic st c Hlen Hc)
      as (v0 & st0 & -> & Hshape).
    intros [= <- <-].
    destruct Hshape as [Hraw | (payload & schema & st2 & Hshape)]; [by left |].
    right; right; left. split; [done |]. by exists c, payload, schema, st2.
  - assert (Hafter : json_strategy rt raw st = (Return None, st) ->
      plain_path rt raw topic st = (Return v, st') ->
      (exists data rest, v = VDict (("raw_bytes", VStr (b64 data)) :: rest))
      \/ exists name schema st1,
           TOPIC_SCHEMA_MAP !! topic = Some name
           /\ get_schema_by_name rt name st = (Return schema, st1)
           /\ py_truthy schema = true
           /\ schemaless_reader rt raw schema = Return v
           /\ is_dict v = true /\ dict_contains "decode_error" v = false).
    { intros Hjson. rewrite (plain_path_after_json rt raw topic st Hjson).
      destruct (topic_strategy_shape rt raw topic st)
        as (r & st1' & -> & [-> | (name & schema & st1 & d & Htopic & Hschema
                                   & Htruthy & Hread
                                   & [(-> & Hdict & Herr) | (-> & Hdict)])]).
      - intros [= <- <-]. left. eauto.
      - intros [= <- <-]. right. by exists name, schema, st1.
      - discriminate. }
    pose proof (json_strategy_run rt raw st) as Hjson.
    destruct (utf8_valid raw) eqn:Hutf8.
    + destruct (json_loads rt (string_of_list_byte raw)) as [j | e] eqn:Hloads.
      * unfold plain_path. unfold bind at 1. rewrite Hjson.
        intros [= <- <-]. right; left. done.
      * destruct (json_or_unicode_error e).
        -- intros Hrun. destruct (Hafter Hjson Hrun) as [Hraw | Hread];
             [by left | by right; right; right].
        -- unfold plain_path. unfold bind at 1. by rewrite Hjson.
    + intros Hrun. destruct (Hafter Hjson Hrun) as [Hraw | Hread];
        [by left | by right; right; right].
Qed.

Lemma decoded_record_shape_witness :
  (exists data rest, VInt 2 = VDict (("raw_bytes", VStr (b64 data)) :: rest))
  \/ (has_registry_header (sample_header x00 ++ [x04]) = false
      /\ utf8_valid (sample_header x00 ++ [x04]) = true
      /\ json_loads rt_full (string_of_list_byte (sample_header x00 ++ [x04]))
         = Return (VInt 2))
  \/ (has_registry_header (sample_header x00 ++ [x04]) = true
      /\ exists c payload schema st2,
           (sample_header x00 ++ [x04]) !! 1 = Some c
           /\ (if Byte.eqb c x05
               then zlib_decompress rt_full (drop 18 (sample_header x00 ++ [x04]))
               else Return (drop 18 (sample_header x00 ++ [x04])))
              = Return payload
           /\ get_avro_schema rt_full
                (header_schema_id (sample_header x00 ++ [x04]))
                (printed cold
                   ([LogDetected "taxi-trips";
                     LogSchemaVersionId
                       (header_schema_id (sample_header x00 ++ [x04]))]
                    ++ if Byte.eqb c x05 then [LogDecompressed] else []))
              = (Return schema, st2)
           /\ py_truthy schema = true
           /\ schemaless_reader rt_full payload schema = Return (VInt 2))
  \/ (has_registry_header (sample_header x00 ++ [x04]) = false
      /\ exists name schema st1,
           TOPIC_SCHEMA_MAP !! "taxi-trips" = Some name
           /\ get_schema_by_name rt_full name cold = (Return schema, st1)
           /\ py_truthy schema = true
           /\ schemaless_reader rt_full (sample_header x00 ++ [x04]) schema
              = Return (VInt 2)
           /\ is_dict (VInt 2) = true
           /\ dict_contains "decode_error" (VInt 2) = false).
Proof.
  apply (decoded_record_shape rt_full (sample_header x00 ++ [x04]) "taxi-trips"
           cold (VInt 2)
           (snd (deserialize_message rt_full (sample_header x00 ++ [x04])
                   "taxi-trips" cold))).
  reflexivity.
Defined.

(** C2.  [deserialize_message] can raise.  With fastavro installed and the
    registry holding the primitive schema ["long"] under [taxi-trip-schema],
    the one-byte message 0x02 on topic [taxi-trips] is not JSON, decodes to
    the integer 1, and line 197 then calls [.get] on that integer: the
    [AttributeError] leaves the function. *)
Theorem topic_path_raises_on_non_mapping :
  fst (deserialize_message rt_full [x02] "taxi-trips" cold)
  = Raise (Exn AttributeError "'int' object has no attribute 'get'").
Proof. reflexivity. Qed.


(** ** Further properties of the decode pipeline *)

Lemma same_registry_view_refl (st : state) : same_registry_view st st.
Proof. by split. Qed.

Lemma same_registry_view_trans (st1 st2 st3 : state) :
  same_registry_view st1 st2 -> same_registry_view st2 st3 ->
  same_registry_view st1 st3.
Proof. intros [Hc1 Hr1] [Hc2 Hr2]. split; congruence. Qed.

Lemma lookup_effect_after_quiet (key : string) (req : glue_request)
    (st1 st2 st3 : state) :
  same_registry_view st1 st2 -> lookup_effect key req st2 st3 ->
  lookup_effect key req st1 st3.
Proof.
  intros [Hc Hr] [Hsame | (Hmiss & Hreq & Hstore)].
  - left. by apply same_registry_view_trans with st2.
  - right. rewrite Hc in Hmiss, Hstore. by rewrite Hr in Hreq.
Qed.

Lemma lookup_effect_then_quiet (key : string) (req : glue_request)
    (st1 st2 st3 : state) :
  lookup_effect key req st1 st2 -> same_registry_view st2 st3 ->
  lookup_effect key req st1 st3.
Proof.
  intros [Hsame | (Hmiss & Hreq & Hstore)] [Hc Hr].
  - left. by apply same_registry_view_trans with st2.
  - right. by rewrite Hc, Hr.
Qed.

Lemma quiet_ret {A} (a : A) : quiet (ret a).
Proof. intros st. apply same_registry_view_refl. Qed.

Lemma quiet_lift {A} (o : outcome A) : quiet (lift o).
Proof. intros st. apply same_registry_view_refl. Qed.

Lemma quiet_print (l : log_line) : quiet (print l).
Proof. intros st. by split. Qed.

Lemma quiet_bind {A B} (m : M A) (k : A -> M B) :
  quiet m -> (forall a, quiet (k a)) -> quiet (bind m k).
Proof.
  intros Hm Hk st. unfold bind. specialize (Hm st).
  destruct (m st) as [[a | e] st1]; simpl in *; [| done].
  eapply same_registry_view_trans; [exact Hm | apply Hk].
Qed.

Lemma quiet_try_except_only {A} (body : M A) (classes : exn -> bool)
    (handler : M A) :
  quiet body -> quiet handler -> quiet (try_except_only body classes handler).
Proof.
  intros Hm Hk st. unfold try_except_only. specialize (Hm st).
  destruct (body st) as [[a | e] st1]; simpl in *; [done |].
  destruct (classes e); [| done].
  eapply same_registry_view_trans; [exact Hm | apply Hk].
Qed.

Lemma quiet_try_except {A} (body : M A) (handler : exn -> M A) :
  quiet body -> (forall e, quiet (handler e)) -> quiet (try_except body handler).
Proof.
  intros Hm Hk st. unfold try_except. specialize (Hm st).
  destruct (body st) as [[a | e] st1]; simpl in *; [done |].
  eapply same_registry_view_trans; [exact Hm | apply Hk].
Qed.

Lemma looks_up_quiet {A} (key : string) (req : glue_request) (m : M A) :
  quiet m -> looks_up key req m.
Proof. intros Hm st. left. apply Hm. Qed.

Lemma looks_up_bind_l {A B} (key : string) (req : glue_request)
    (m : M A) (k : A -> M B) :
  looks_up key req m -> (forall a, quiet (k a)) -> looks_up key req (bind m k).
Proof.
  intros Hm Hk st. unfold bind. specialize (Hm st).
  destruct (m st) as [[a | e] st1]; simpl in *; [| done].
  eapply lookup_effect_then_quiet; [exact Hm | apply Hk].
Qed.

Lemma looks_up_bind_r {A B} (key : string) (req : glue_request)
    (m : M A) (k : A -> M B) :
  quiet m -> (forall a, looks_up key req (k a)) -> looks_up key req (bind m k).
Proof.
  intros Hm Hk st. unfold bind. specialize (Hm st).
  destruct (m st) as [[a | e] st1]; simpl in *; [| by left].
  eapply lookup_effect_after_quiet; [exact Hm | apply Hk].
Qed.

Ltac quiet_step :=
  first
    [ apply quiet_ret | apply quiet_lift | apply quiet_print
    | apply quiet_bind; [| intros ?]
    | apply quiet_try_except_only
    | apply quiet_try_except; [| intros ?] ].

Section Effects.

Context (rt : runtime).

Lemma looks_up_get_avro_schema (id : string) :
  looks_up id (ByVersionId id) (get_avro_schema rt id).
Proof.
  intros st.
  destruct (_schema_cache st !! id) as [s |] eqn:Hc.
  { rewrite (get_avro_schema_hit rt _ _ _ Hc). left. apply same_registry_view_refl. }
  destruct (glue_client rt) as [client |] eqn:Hg.
  - rewrite (get_avro_schema_miss rt _ _ _ Hc Hg).
    destruct (fst (fetch_and_parse rt client (ByVersionId id) st));
      right; simpl; eauto.
  - rewrite (get_avro_schema_no_client rt _ _ Hc Hg). by left.
Qed.

Lemma looks_up_get_schema_by_name (name : string) :
  looks_up ("name:" +:+ name) (ByName (registry_of rt) name)
           (get_schema_by_name rt name).
Proof.
  intros st. unfold registry_of.
  destruct (_schema_cache st !! ("name:" +:+ name)) as [s |] eqn:Hc.
  { rewrite (get_schema_by_name_hit rt _ _ _ Hc). left.
    apply same_registry_view_refl. }
  destruct (glue_client rt) as [client |] eqn:Hg.
  2:{ rewrite get_schema_by_name_unavailable; eauto. by left. }
  destruct (GLUE_REGISTRY_NAME rt) as [registry |] eqn:Hr.
  2:{ rewrite get_schema_by_name_unavailable; eauto. by left. }
  destruct (str_truthy registry) eqn:Ht.
  - rewrite (get_schema_by_name_miss rt _ _ _ _ Hc Hg Hr Ht).
    destruct (fst (fetch_and_parse rt client (ByName registry name) st));
      right; simpl; eauto.
  - assert (registry = EmptyString) as ->.
    { unfold str_truthy in Ht. apply negb_false_iff in Ht.
      by apply String.eqb_eq in Ht. }
    rewrite get_schema_by_name_unavailable; eauto. by left.
Qed.

Lemma quiet_decode_avro_payload (payload : list byte) (schema : pyval) :
  quiet (decode_avro_payload rt payload schema).
Proof.
  unfold decode_avro_payload, decode_fallback, b64_text.
  destruct (FASTAVRO_AVAILABLE rt); simpl; repeat quiet_step.
Qed.

Lemma looks_up_resolve_and_decode (id : string) (payload : list byte) :
  looks_up id (ByVersionId id) (resolve_and_decode rt id payload).
Proof.
  unfold resolve_and_decode, b64_text.
  apply looks_up_bind_l; [apply looks_up_get_avro_schema |].
  intros schema. destruct (py_truthy schema); [| repeat quiet_step].
  apply quiet_bind; [apply quiet_decode_avro_payload |].
  intros decoded. destruct (is_dict decoded); repeat quiet_step.
Qed.

Lemma same_registry_view_printed (st : state) (lines : list log_line) :
  same_registry_view st (printed st lines).
Proof. by split. Qed.

Lemma lookup_effect_registry_envelope_path (raw : list byte) (topic : string)
    (st : state) :
  18 < length raw ->
  lookup_effect (header_schema_id raw) (ByVersionId (header_schema_id raw)) st
                (snd (registry_envelope_path rt raw topic st)).
Proof.
  intros Hlen.
  destruct (lookup_lt_is_Some_2 raw 1 ltac:(lia)) as [c Hc].
  unfold registry_envelope_path, try_except.
  rewrite (registry_envelope_body_run rt raw topic st c Hlen Hc). simpl.
  set (st0 := printed st _).
  assert (Hrun : forall payload st1,
    same_registry_view st st1 ->
    lookup_effect (header_schema_id raw) (ByVersionId (header_schema_id raw)) st
      (snd match resolve_and_decode rt (header_schema_id raw) payload st1 with
           | (Return a, st2) => (Return a, st2)
           | (Raise e, st2) =>
               (print (LogRegistryFailed e) ;;;
                let* text := b64_text raw in
                ret (VDict [("raw_bytes", VStr text);
                            ("error", VStr (exn_msg e))])) st2
           end)).
  { intros payload st1 Hview.
    pose proof (looks_up_resolve_and_decode (header_schema_id raw) payload st1)
      as Heff.
    destruct (resolve_and_decode_returns rt (header_schema_id raw) payload st1)
      as (v & st2 & Hret).
    rewrite Hret in *. simpl in *.
    by apply lookup_effect_after_quiet with st1. }
  destruct (Byte.eqb c x05).
  - destruct (zlib_decompress rt (drop 18 raw)) as [inflated | e].
    + apply Hrun. by split.
    + left. unfold bind, print, ret. rewrite b64_text_run. by split.
  - apply Hrun. by split.
Qed.

Lemma quiet_json_strategy (raw : list byte) : quiet (json_strategy rt raw).
Proof. unfold json_strategy. repeat quiet_step. Qed.

(** The topic-convention strategy resolves the mapped schema name at most
    once. *)
Lemma looks_up_topic_strategy (raw : list byte) (topic : string) (name : string) :
  TOPIC_SCHEMA_MAP !! topic = Some name ->
  looks_up ("name:" +:+ name) (ByName (registry_of rt) name)
           (topic_strategy rt raw topic).
Proof.
  intros Htopic. unfold topic_strategy. rewrite Htopic.
  destruct (str_truthy name && FASTAVRO_AVAILABLE rt);
    [| apply looks_up_quiet; quiet_step].
  apply looks_up_bind_l; [apply looks_up_get_schema_by_name |].
  intros schema. destruct (py_truthy schema); [| quiet_step].
  apply quiet_bind; [quiet_step |]. intros _.
  apply quiet_bind; [apply quiet_decode_avro_payload |].
  intros decoded.
  destruct (is_dict decoded && negb (dict_contains "decode_error" decoded));
    repeat quiet_step.
Qed.

Lemma quiet_topic_strategy_unmapped (raw : list byte) (topic : string) :
  TOPIC_SCHEMA_MAP !! topic = None -> quiet (topic_strategy rt raw topic).
Proof. intros Htopic. unfold topic_strategy. rewrite Htopic. quiet_step. Qed.

Lemma lookup_effect_plain_path (raw : list byte) (topic : string) (st : state) :
  exists key req,
    lookup_effect key req st (snd (plain_path rt raw topic st)).
Proof.
  destruct (TOPIC_SCHEMA_MAP !! topic) as [name |] eqn:Htopic.
  - exists ("name:" +:+ name), (ByName (registry_of rt) name).
    revert st. change (looks_up ("name:" +:+ name) (ByName (registry_of rt) name)
                         (plain_path rt raw topic)).
    unfold plain_path, b64_text.
    apply looks_up_bind_r; [apply quiet_json_strategy |].
    intros [v |]; [apply looks_up_quiet; quiet_step |].
    apply looks_up_bind_l; [by apply looks_up_topic_strategy |].
    intros [v |]; repeat quiet_step.
  - exists EmptyString, (ByVersionId EmptyString). left.
    revert st. change (quiet (plain_path rt raw topic)).
    unfold plain_path, b64_text.
    apply quiet_bind; [apply quiet_json_strategy |].
    intros [v |]; [quiet_step |].
    apply quiet_bind; [by apply quiet_topic_strategy_unmapped |].
    intros [v |]; repeat quiet_step.
Qed.

End Effects.

(** X1. One call to [deserialize_message] sends at most one request to the
    registry, never removes or replaces an entry of the schema cache, and
    leaves the cache as it was unless it sent a request. *)
Theorem deserialize_message_one_lookup
    (rt : runtime) (raw : list byte) (topic : string) (st : state) :
  exists reqs,
    glue_calls (snd (deserialize_message rt raw topic st)) = glue_calls st ++ reqs
    /\ length reqs <= 1
    /\ (forall key s,
          _schema_cache st !! key = Some s ->
          _schema_cache (snd (deserialize_message rt raw topic st)) !! key = Some s)
    /\ (reqs = [] ->
        _schema_cache (snd (deserialize_message rt raw topic st)) = _schema_cache st).
Proof.
  assert (Heff : exists key req,
    lookup_effect key req st (snd (deserialize_message rt raw topic st))).
  { unfold deserialize_message.
    destruct (has_registry_header raw) eqn:Hhdr.
    - apply has_registry_header_iff in Hhdr as [Hlen _].
      eexists _, _. by apply lookup_effect_registry_envelope_path.
    - apply lookup_effect_plain_path. }
  destruct Heff as (key & req & [[Hc Hr] | (Hmiss & Hreq & Hstore)]).
  - exists []. rewrite app_nil_r, Hc. repeat split; auto.
  - exists [req]. repeat split; [done | simpl; lia | | done].
    intros key' s Hs.
    destruct Hstore as [-> | [s' ->]]; [done |].
    rewrite lookup_insert_ne; [done |]. congruence.
Qed.

(** X3. A message whose header identifier is already in the cache is
    answered without any request to the registry and without any change to
    the cache. *)
Theorem cached_header_schema_no_request
    (rt : runtime) (raw : list byte) (topic : string) (st : state) (s : pyval) :
  18 < length raw -> raw !! 0 = Some x03 ->
  _schema_cache st !! header_schema_id raw = Some s ->
  glue_calls (snd (deserialize_message rt raw topic st)) = glue_calls st
  /\ _schema_cache (snd (deserialize_message rt raw topic st)) = _schema_cache st.
Proof.
  intros Hlen Hfirst Hhit.
  assert (Hhdr : has_registry_header raw = true)
    by (by apply has_registry_header_iff).
  unfold deserialize_message. rewrite Hhdr.
  destruct (lookup_effect_registry_envelope_path rt raw topic st Hlen)
    as [[Hc Hr] | (Hmiss & _)]; [done | congruence].
Qed.

Lemma cached_header_schema_no_request_witness :
  glue_calls (snd (deserialize_message rt_full (sample_header x00 ++ [x04])
                     "taxi-trips" warm_id)) = []
  /\ _schema_cache (snd (deserialize_message rt_full (sample_header x00 ++ [x04])
                           "taxi-trips" warm_id))
     = {[ long_version_id := VStr "long" ]}.
Proof.
  apply (cached_header_schema_no_request rt_full (sample_header x00 ++ [x04])
           "taxi-trips" warm_id (VStr "long")).
  - simpl. lia.
  - reflexivity.
  - reflexivity.
Defined.

Lemma hex_digit_not_n (k : N) : hex_digit k <> "n"%char.
Proof.
  unfold hex_digit. generalize (N.to_nat k). intros n.
  do 16 (destruct n as [| n]; [simpl; congruence |]). simpl. congruence.
Qed.

(** The stringified identifier of a header never starts like a key of the
    resolver by name. *)
Lemma header_schema_id_not_name (raw : list byte) (name : string) :
  header_schema_id raw <> "name:" +:+ name.
Proof.
  unfold header_schema_id, uuid_str.
  destruct (take 4 (py_slice raw 2 18)) as [| b rest];
    cbv [hex_bytes fold_right hex_byte String.append].
  - congruence.
  - intros [= Hfirst _]. by apply hex_digit_not_n in Hfirst.
Qed.

(** X4. The two resolvers never share a cache entry: the identifier of a
    header is never a key of the form [name:...], so resolving a schema by
    name leaves every lookup by header identifier as it was, and the other
    way round. *)
Theorem resolver_cache_keys_disjoint
    (rt : runtime) (raw : list byte) (name : string) (st : state) :
  header_schema_id raw <> "name:" +:+ name
  /\ _schema_cache (snd (get_schema_by_name rt name st)) !! header_schema_id raw
     = _schema_cache st !! header_schema_id raw
  /\ _schema_cache (snd (get_avro_schema rt (header_schema_id raw) st))
       !! ("name:" +:+ name)
     = _schema_cache st !! ("name:" +:+ name).
Proof.
  pose proof (header_schema_id_not_name raw name) as Hne.
  split; [done |]. split.
  - destruct (looks_up_get_schema_by_name rt name st)
      as [[-> _] | (_ & _ & [-> | [s ->]])]; try done.
    by rewrite lookup_insert_ne.
  - destruct (looks_up_get_avro_schema rt (header_schema_id raw) st)
      as [[-> _] | (_ & _ & [-> | [s ->]])]; try done.
    by rewrite lookup_insert_ne.
Qed.

(** X5. Resolving the same schema name twice sends one request: on a miss
    whose lookup and parsing succeed, [get_schema_by_name] sends the request,
    stores the schema under [name:<schema name>] and returns it; the second
    call returns it from the cache and changes nothing. *)
Theorem get_schema_by_name_twice_one_call
    (rt : runtime) (client : glue) (registry name : string) (st : state)
    (s : pyval) :
  _schema_cache st !! ("name:" +:+ name) = None ->
  glue_client rt = Some client ->
  GLUE_REGISTRY_NAME rt = Some registry -> str_truthy registry = true ->
  fst (fetch_and_parse rt client (ByName registry name) st) = Return s ->
  exists st1,
    get_schema_by_name rt name st = (Return s, st1)
    /\ glue_calls st1 = glue_calls st ++ [ByName registry name]
    /\ _schema_cache st1 = <["name:" +:+ name := s]> (_schema_cache st)
    /\ get_schema_by_name rt name st1 = (Return s, st1).
Proof.
  intros Hmiss Hclient Hreg Htruthy Hfetch.
  rewrite (get_schema_by_name_miss rt client registry name st
             Hmiss Hclient Hreg Htruthy), Hfetch.
  eexists. split; [reflexivity |]. split; [reflexivity |].
  split; [reflexivity |].
  apply get_schema_by_name_hit. simpl. apply lookup_insert_eq.
Qed.

Lemma get_schema_by_name_twice_one_call_witness :
  exists st1,
    get_schema_by_name rt_full "taxi-trip-schema" cold = (Return (VStr "long"), st1)
    /\ glue_calls st1 = [ByName "taxi-registry" "taxi-trip-schema"]
    /\ _schema_cache st1 = <["name:taxi-trip-schema" := VStr "long"]> ∅
    /\ get_schema_by_name rt_full "taxi-trip-schema" st1
       = (Return (VStr "long"), st1).
Proof.
  apply (get_schema_by_name_twice_one_call rt_full glue_double "taxi-registry"
           "taxi-trip-schema" cold (VStr "long")); reflexivity.
Defined.

Lemma json_strategy_not_json (rt : runtime) (raw : list byte) (st : state) :
  utf8_valid raw = false
  \/ (exists e, json_loads rt (string_of_list_byte raw) = Raise e
                /\ exn_kind e = JSONDecodeError) ->
  json_strategy rt raw st = (Return None, st).
Proof.
  intros Hjson. rewrite json_strategy_run.
  destruct Hjson as [-> | (e & -> & Hkind)]; [done |].
  unfold json_or_unicode_error. rewrite Hkind. by destruct (utf8_valid raw).
Qed.

(** Every schema name of the topic table is a non-empty string. *)
Lemma topic_map_names_truthy (topic name : string) :
  TOPIC_SCHEMA_MAP !! topic = Some name -> str_truthy name = true.
Proof.
  unfold TOPIC_SCHEMA_MAP. intros Hin.
  apply elem_of_list_to_map_2 in Hin.
  repeat (apply elem_of_cons in Hin as [[= -> ->] | Hin]; [reflexivity |]).
  by apply elem_of_nil in Hin.
Qed.

(** X6. Without fastavro, a message without a registry header is answered
    by the JSON step alone, on every topic, mapped or not: the parsed value
    when the input is UTF-8 text that [json.loads] accepts; the bare
    [raw_bytes] mapping of the whole input when it is not UTF-8 or
    [json.loads] raises one of the two classes caught at line 183; the
    exception itself when [json.loads] raises anything else.  The state is
    left untouched: the topic-convention path is not entered, so no schema is
    resolved. *)
Theorem without_fastavro_plain_fallback
    (rt : runtime) (raw : list byte) (topic : string) (st : state) :
  FASTAVRO_AVAILABLE rt = false ->
  length raw <= 18 \/ raw !! 0 <> Some x03 ->
  deserialize_message rt raw topic st
  = if utf8_valid raw then
      match json_loads rt (string_of_list_byte raw) with
      | Return v => (Return v, st)
      | Raise e =>
          if json_or_unicode_error e
          then (Return (VDict [("raw_bytes", VStr (b64 raw))]), st)
          else (Raise e, st)
      end
    else (Return (VDict [("raw_bytes", VStr (b64 raw))]), st).
Proof.
  intros Hfast Hno. unfold deserialize_message. rewrite (no_header raw Hno).
  apply plain_path_without_topic_decode.
  unfold topic_strategy. rewrite Hfast.
  destruct (TOPIC_SCHEMA_MAP !! topic); by rewrite ?andb_false_r.
Qed.

Lemma without_fastavro_plain_fallback_witness :
  deserialize_message rt_bare [x02] "taxi-trips" cold
  = (Return (VDict [("raw_bytes", VStr "Ag==")]), cold).
Proof.
  apply (without_fastavro_plain_fallback rt_bare [x02] "taxi-trips" cold).
  - reflexivity.
  - left. simpl. lia.
Defined.



(** X8. On the topic-convention path (no header, the JSON step fell
    through, mapped topic, fastavro installed, schema resolved by name) a
    failed binary decode is swallowed: when the reader raises on the message
    under the schema that [get_schema_by_name] returned, the answer is the
    bare [raw_bytes] mapping of the whole input, without a [decode_error]
    key; the reader's message only reaches the log. *)
Theorem topic_decode_failure_is_swallowed
    (rt : runtime) (raw : list byte) (topic name : string) (st : state)
    (schema : pyval) (st1 : state) (e : exn) :
  length raw <= 18 \/ raw !! 0 <> Some x03 ->
  utf8_valid raw = false
  \/ (exists e0, json_loads rt (string_of_list_byte raw) = Raise e0
                 /\ exn_kind e0 = JSONDecodeError) ->
  TOPIC_SCHEMA_MAP !! topic = Some name ->
  FASTAVRO_AVAILABLE rt = true ->
  get_schema_by_name rt name st = (Return schema, st1) ->
  py_truthy schema = true ->
  schemaless_reader rt raw schema = Raise e ->
  deserialize_message rt raw topic st
  = (Return (VDict [("raw_bytes", VStr (b64 raw))]),
     printed st1 [LogAttemptRaw topic name; LogAvroDecodeError e;
                  LogRawDecodeFailed (VStr (exn_msg e))]).
Proof.
  intros Hno Hjson Htopic Hfast Hschema Htruthy Hread.
  unfold deserialize_message.
  rewrite (no_header raw Hno).
  rewrite (plain_path_after_json rt raw topic st
             (json_strategy_not_json rt raw st Hjson)).
  unfold topic_strategy.
  rewrite Htopic, (topic_map_names_truthy topic name Htopic), Hfast. simpl.
  unfold bind at 1. rewrite Hschema, Htruthy.
  unfold bind at 1, print at 1. unfold bind at 1.
  rewrite decode_avro_payload_run, Hfast, Hread. simpl.
  unfold bind, lift, print, ret, printed. simpl. by rewrite <- !app_assoc.
Qed.

Lemma topic_decode_failure_is_swallowed_witness :
  deserialize_message rt_full [xff; xfe] "taxi-trips" cold
  = (Return (VDict [("raw_bytes", VStr "//4=")]),
     printed
       (State (<["name:taxi-trip-schema" := VStr "long"]> ∅)
              [ByName "taxi-registry" "taxi-trip-schema"]
              [LogCachedName "taxi-trip-schema"])
       [LogAttemptRaw "taxi-trips" "taxi-trip-schema";
        LogAvroDecodeError (Exn (LibraryError "EOFError") EmptyString);
        LogRawDecodeFailed (VStr EmptyString)]).
Proof.
  apply (topic_decode_failure_is_swallowed rt_full [xff; xfe] "taxi-trips"
           "taxi-trip-schema" cold (VStr "long")
           (State (<["name:taxi-trip-schema" := VStr "long"]> ∅)
                  [ByName "taxi-registry" "taxi-trip-schema"]
                  [LogCachedName "taxi-trip-schema"])
           (Exn (LibraryError "EOFError") EmptyString)).
  - left. simpl. lia.
  - left. reflexivity.
  - reflexivity.
  - reflexivity.
  - reflexivity.
  - reflexivity.
  - reflexivity.
Defined.

(** X9. A message with a registry header whose schema is resolved is
    answered with what the binary decoder makes of the payload (the bytes
    after the header, inflated under compression byte 0x05): the reader's
    value, mapping or not, or, when the reader raises,
    [{raw_bytes: base64 of the payload, decode_error: message}]. *)
Theorem header_resolved_schema_decodes
    (rt : runtime) (raw : list byte) (topic : string) (st : state)
    (c : byte) (payload : list byte) (schema : pyval) (st2 : state) :
  18 < length raw -> raw !! 0 = Some x03 -> raw !! 1 = Some c ->
  (if Byte.eqb c x05 then zlib_decompress rt (drop 18 raw)
   else Return (drop 18 raw)) = Return payload ->
  get_avro_schema rt (header_schema_id raw)
    (printed st ([LogDetected topic; LogSchemaVersionId (header_schema_id raw)]
                 ++ if Byte.eqb c x05 then [LogDecompressed] else []))
  = (Return schema, st2) ->
  py_truthy schema = true ->
  FASTAVRO_AVAILABLE rt = true ->
  deserialize_message rt raw topic st
  = match schemaless_reader rt payload schema with
    | Return v => (Return v, printed st2 [LogDecoded (dict_keys v)])
    | Raise e =>
        (Return (VDict [("raw_bytes", VStr (b64 payload));
                        ("decode_error", VStr (exn_msg e))]),
         printed st2 [LogAvroDecodeError e;
                      LogDecoded (Some ["raw_bytes"; "decode_error"])])
    end.
Proof.
  intros Hlen Hfirst Hc Hpayload Hschema Htruthy Hfast.
  assert (Hhdr : has_registry_header raw = true)
    by (by apply has_registry_header_iff).
  assert (Hrun : forall st1,
    get_avro_schema rt (header_schema_id raw) st1 = (Return schema, st2) ->
    resolve_and_decode rt (header_schema_id raw) payload st1
    = match schemaless_reader rt payload schema with
      | Return v => (Return v, printed st2 [LogDecoded (dict_keys v)])
      | Raise e =>
          (Return (VDict [("raw_bytes", VStr (b64 payload));
                          ("decode_error", VStr (exn_msg e))]),
           printed st2 [LogAvroDecodeError e;
                        LogDecoded (Some ["raw_bytes"; "decode_error"])])
      end).
  { intros st1 Hst1.
    rewrite (resolve_and_decode_run rt _ _ _ _ _ Hst1), Htruthy.
    rewrite decode_avro_payload_run, Hfast.
    destruct (schemaless_reader rt payload schema); [done |].
    unfold printed. simpl. by rewrite <- app_assoc. }
  unfold deserialize_message, registry_envelope_path, try_except.
  rewrite Hhdr, (registry_envelope_body_run rt raw topic st c Hlen Hc). simpl.
  destruct (Byte.eqb c x05).
  - rewrite Hpayload.
    unfold printed in Hschema |- *. simpl in Hschema |- *.
    rewrite <- app_assoc. simpl.
    rewrite (Hrun _ Hschema).
    by destruct (schemaless_reader rt payload schema).
  - injection Hpayload as <-.
    unfold printed in Hschema |- *. simpl in Hschema |- *.
    rewrite (Hrun _ Hschema).
    by destruct (schemaless_reader rt (drop 18 raw) schema).
Qed.

Lemma header_resolved_schema_decodes_witness :
  deserialize_message rt_full (sample_header x00 ++ [x04]) "taxi-trips" warm_id
  = (Return (VInt 2),
     printed warm_id [LogDetected "taxi-trips"; LogSchemaVersionId long_version_id;
                      LogDecoded None]).
Proof.
  apply (header_resolved_schema_decodes rt_full (sample_header x00 ++ [x04])
           "taxi-trips" warm_id x00 [x04] (VStr "long")
           (printed warm_id [LogDetected "taxi-trips";
                             LogSchemaVersionId long_version_id])).
  - simpl. lia.
  - reflexivity.
  - reflexivity.
  - reflexivity.
  - reflexivity.
  - reflexivity.
  - reflexivity.
Defined.

(** X10. On the topic-convention path (no header, not UTF-8 JSON, mapped
    topic, fastavro installed, schema resolved by name) a decoded record is
    returned as it is, unless it has a field called [decode_error]: such a
    record is taken for a failed decode and the answer is the bare
    [raw_bytes] mapping of the input. *)
Theorem topic_convention_decodes
    (rt : runtime) (raw : list byte) (topic name : string) (st : state)
    (schema : pyval) (st1 : state) (items : list (string * pyval)) :
  length raw <= 18 \/ raw !! 0 <> Some x03 ->
  utf8_valid raw = false
  \/ (exists e, json_loads rt (string_of_list_byte raw) = Raise e
                /\ exn_kind e = JSONDecodeError) ->
  TOPIC_SCHEMA_MAP !! topic = Some name ->
  FASTAVRO_AVAILABLE rt = true ->
  get_schema_by_name rt name st = (Return schema, st1) ->
  py_truthy schema = true ->
  schemaless_reader rt raw schema = Return (VDict items) ->
  deserialize_message rt raw topic st
  = match assoc "decode_error" items with
    | None =>
        (Return (VDict items),
         printed st1 [LogAttemptRaw topic name; LogRawDecoded (map fst items)])
    | Some reason =>
        (Return (VDict [("raw_bytes", VStr (b64 raw))]),
         printed st1 [LogAttemptRaw topic name; LogRawDecodeFailed reason])
    end.
Proof.
  intros Hno Hjson Htopic Hfast Hschema Htruthy Hread.
  unfold deserialize_message.
  rewrite (no_header raw Hno). unfold plain_path. unfold bind at 1.
  rewrite (json_strategy_not_json rt raw st Hjson).
  unfold bind at 1. unfold topic_strategy.
  rewrite Htopic, (topic_map_names_truthy topic name Htopic), Hfast. simpl.
  unfold bind at 1. rewrite Hschema, Htruthy.
  unfold bind at 1, print at 1. unfold bind at 1.
  rewrite decode_avro_payload_run, Hfast, Hread. simpl.
  destruct (assoc "decode_error" items) as [reason |]; simpl.
  - unfold bind, ret. rewrite b64_text_run.
    unfold printed. simpl. by rewrite <- app_assoc.
  - unfold bind, lift, print, ret, printed. simpl. by rewrite <- ?app_assoc.
Qed.

Lemma topic_convention_decodes_witness :
  deserialize_message rt_records [xc8; x01] "taxi-trips" warm
  = (Return (VDict [("PULocationID", VInt 100)]),
     printed warm [LogAttemptRaw "taxi-trips" "taxi-trip-schema";
                   LogRawDecoded ["PULocationID"]]).
Proof.
  apply (topic_convention_decodes rt_records [xc8; x01] "taxi-trips"
           "taxi-trip-schema" warm trip_schema warm [("PULocationID", VInt 100)]).
  - left. simpl. lia.
  - left. reflexivity.
  - reflexivity.
  - reflexivity.
  - reflexivity.
  - reflexivity.
  - reflexivity.
Defined.

(** ** Base64: the decoder undoes the encoder *)

Lemma low_byte_to_N (b : byte) : low_byte (Byte.to_N b) = b.
Proof.
  unfold low_byte. rewrite N.mod_small.
  - by rewrite Byte.of_to_N.
  - pose proof (Byte.to_N_bounded b). lia.
Qed.

Lemma in_all_bytes (b : byte) : In b all_bytes.
Proof.
  unfold all_bytes. apply in_map_iff. exists (Byte.to_nat b). split.
  - rewrite <- Byte.to_N_via_nat. apply low_byte_to_N.
  - apply in_seq. pose proof (Byte.to_nat_bounded b). lia.
Qed.

Lemma forall_bytes (P : byte -> bool) :
  forallb P all_bytes = true -> forall b, P b = true.
Proof.
  intros Hall b. rewrite forallb_forall in Hall. apply Hall, in_all_bytes.
Qed.

Lemma check_first_all (a b : byte) : check_first a b = true.
Proof.
  assert (Hall : forallb (fun a => forallb (check_first a) all_bytes) all_bytes
                 = true) by (vm_compute; reflexivity).
  apply (forall_bytes (check_first a)).
  apply (forall_bytes (fun a => forallb (check_first a) all_bytes) Hall).
Qed.

Lemma check_second_all (b c : byte) : check_second b c = true.
Proof.
  assert (Hall : forallb (fun b => forallb (check_second b) all_bytes) all_bytes
                 = true) by (vm_compute; reflexivity).
  apply (forall_bytes (check_second b)).
  apply (forall_bytes (fun b => forallb (check_second b) all_bytes) Hall).
Qed.

Lemma check_third_all (c : byte) : check_third c = true.
Proof. apply forall_bytes. vm_compute. reflexivity. Qed.

Lemma decodes_to_spec (c : byte) (k : N) :
  decodes_to c k = true -> Byte.eqb c x3d = false /\ b64_value c = Some k.
Proof.
  unfold decodes_to. intros [Hpad Hval]%andb_true_iff.
  apply negb_true_iff in Hpad. split; [done |].
  destruct (b64_value c) as [v |]; [| done].
  by apply N.eqb_eq in Hval as ->.
Qed.

(** One step of the decoding loop on a character of the alphabet. *)
Lemma a2b_base64_char (c : byte) (k : N) (rest : list byte)
    (quad_pos : nat) (leftchar : N) (pads written : nat) :
  decodes_to c k = true ->
  a2b_base64 (c :: rest) quad_pos leftchar pads written
  = match quad_pos with
    | 0 => a2b_base64 rest 1 k 0 written
    | 1 =>
        emit (low_byte (N.lor (N.shiftl leftchar 2) (N.shiftr k 4)))
             (a2b_base64 rest 2 (N.land k 15) 0 (S written))
    | 2 =>
        emit (low_byte (N.lor (N.shiftl leftchar 4) (N.shiftr k 2)))
             (a2b_base64 rest 3 (N.land k 3) 0 (S written))
    | _ =>
        emit (low_byte (N.lor (N.shiftl leftchar 6) k))
             (a2b_base64 rest 0 0 0 (S written))
    end.
Proof.
  intros [Hpad Hval]%decodes_to_spec. simpl. by rewrite Hpad, Hval.
Qed.

Lemma a2b_base64_roundtrip (data : list byte) (written : nat) :
  a2b_base64 (b64encode data) 0 0 0 written = Return data.
Proof.
  revert written.
  induction data as [| a | a b | a b c rest IH] using list_ind3; intros written.
  - reflexivity.
  - pose proof (check_first_all a x00) as Hab. unfold check_first in Hab.
    change (Byte.to_N x00 / 16)%N with 0%N in Hab. rewrite N.add_0_r in Hab.
    apply andb_true_iff in Hab as [[[H1 H2]%andb_true_iff Ha]%andb_true_iff _].
    apply Byte.byte_dec_bl in Ha.
    cbn [b64encode].
    rewrite (a2b_base64_char _ _ _ _ _ _ _ H1), (a2b_base64_char _ _ _ _ _ _ _ H2).
    rewrite Ha. reflexivity.
  - pose proof (check_first_all a b) as Hab. unfold check_first in Hab.
    apply andb_true_iff in Hab as [[[H1 H2]%andb_true_iff Ha]%andb_true_iff Hl].
    apply Byte.byte_dec_bl in Ha. apply N.eqb_eq in Hl.
    pose proof (check_second_all b x00) as Hbc. unfold check_second in Hbc.
    change (Byte.to_N x00 / 64)%N with 0%N in Hbc. rewrite N.add_0_r in Hbc.
    apply andb_true_iff in Hbc as [[H3 Hb]%andb_true_iff _].
    apply Byte.byte_dec_bl in Hb.
    cbn [b64encode].
    rewrite (a2b_base64_char _ _ _ _ _ _ _ H1), (a2b_base64_char _ _ _ _ _ _ _ H2),
      Hl, (a2b_base64_char _ _ _ _ _ _ _ H3).
    rewrite Ha, Hb. reflexivity.
  - pose proof (check_first_all a b) as Hab. unfold check_first in Hab.
    apply andb_true_iff in Hab as [[[H1 H2]%andb_true_iff Ha]%andb_true_iff Hl].
    apply Byte.byte_dec_bl in Ha. apply N.eqb_eq in Hl.
    pose proof (check_second_all b c) as Hbc. unfold check_second in Hbc.
    apply andb_true_iff in Hbc as [[H3 Hb]%andb_true_iff Hl2].
    apply Byte.byte_dec_bl in Hb. apply N.eqb_eq in Hl2.
    pose proof (check_third_all c) as Hc. unfold check_third in Hc.
    apply andb_true_iff in Hc as [H4 Hc]. apply Byte.byte_dec_bl in Hc.
    cbn [b64encode].
    rewrite (a2b_base64_char _ _ _ _ _ _ _ H1), (a2b_base64_char _ _ _ _ _ _ _ H2),
      Hl, (a2b_base64_char _ _ _ _ _ _ _ H3), Hl2,
      (a2b_base64_char _ _ _ _ _ _ _ H4).
    rewrite Ha, Hb, Hc, IH. reflexivity.
Qed.

(** X11. Base64 decoding undoes base64 encoding, so every fallback record
    keeps the bytes it could not decode: [base64.b64decode] applied to the
    text that [base64.b64encode(b).decode('utf-8')] produced gives [b] back,
    for every byte string [b], the empty one included. *)
Theorem b64decode_b64encode (data : list byte) (st : state) :
  b64_text data st = (Return (b64 data), st)
  /\ b64decode (VStr (b64 data)) = Return data.
Proof.
  split; [apply b64_text_run |].
  unfold b64decode, b64. rewrite list_byte_of_string_of_list_byte.
  assert (Hascii : forallb (in_range 0x00 0x7F) (b64encode data) = true).
  { apply forallb_forall. intros c Hc.
    pose proof (b64encode_ascii data) as Hall.
    rewrite List.Forall_forall in Hall. by apply Hall. }
  rewrite Hascii. apply a2b_base64_roundtrip.
Qed.

(** X12. The base64 text of [n] bytes has [4 * ceil(n / 3)] characters. *)
Theorem b64encode_length (data : list byte) :
  length (b64encode data) = 4 * ((length data + 2) / 3).
Proof.
  induction data as [| a | a b | a b c rest IH] using list_ind3;
    try reflexivity.
  cbn [b64encode length]. rewrite IH.
  replace (S (S (S (length rest))) + 2) with (length rest + 2 + 1 * 3) by lia.
  rewrite Nat.div_add by lia. lia.
Qed.

(** ** The stringified identifier determines the identifier *)

Lemma hex_byte_inj (a b : byte) : hex_byte a = hex_byte b -> a = b.
Proof.
  intros Heq.
  assert (Hall : forallb (fun a => forallb (check_hex a) all_bytes) all_bytes
                 = true) by (vm_compute; reflexivity).
  pose proof (forall_bytes (check_hex a)
                (forall_bytes (fun a => forallb (check_hex a) all_bytes) Hall a) b)
    as Hab.
  unfold check_hex in Hab. rewrite Heq, String.eqb_refl in Hab.
  by apply Byte.byte_dec_bl.
Qed.

Lemma hex_digits_inj (a b : byte) :
  hex_digit (Byte.to_N a / 16) = hex_digit (Byte.to_N b / 16) ->
  hex_digit (Byte.to_N a mod 16) = hex_digit (Byte.to_N b mod 16) ->
  a = b.
Proof.
  intros Hhi Hlo. apply hex_byte_inj. unfold hex_byte. by rewrite Hhi, Hlo.
Qed.

Lemma sixteen_bytes (l : list byte) :
  length l = 16 ->
  exists b0 b1 b2 b3 b4 b5 b6 b7 b8 b9 b10 b11 b12 b13 b14 b15,
    l = [b0; b1; b2; b3; b4; b5; b6; b7; b8; b9; b10; b11; b12; b13; b14; b15].
Proof.
  intros Hlen.
  do 16 (destruct l as [| ? l]; [discriminate |]).
  destruct l; [| discriminate]. by repeat eexists.
Qed.

Lemma uuid_str_inj (u u' : list byte) :
  length u = 16 -> length u' = 16 -> uuid_str u = uuid_str u' -> u = u'.
Proof.
  intros Hu Hu' Heq.
  destruct (sixteen_bytes u Hu)
    as (b0 & b1 & b2 & b3 & b4 & b5 & b6 & b7 & b8 & b9 & b10 & b11 & b12
        & b13 & b14 & b15 & ->).
  destruct (sixteen_bytes u' Hu')
    as (c0 & c1 & c2 & c3 & c4 & c5 & c6 & c7 & c8 & c9 & c10 & c11 & c12
        & c13 & c14 & c15 & ->).
  cbv [uuid_str firstn skipn hex_bytes fold_right hex_byte String.append] in Heq.
  injection Heq as H0 H0' H1 H1' H2 H2' H3 H3' H4 H4' H5 H5' H6 H6' H7 H7'
    H8 H8' H9 H9' H10 H10' H11 H11' H12 H12' H13 H13' H14 H14' H15 H15'.
  by rewrite (hex_digits_inj _ _ H0 H0'), (hex_digits_inj _ _ H1 H1'),
    (hex_digits_inj _ _ H2 H2'), (hex_digits_inj _ _ H3 H3'),
    (hex_digits_inj _ _ H4 H4'), (hex_digits_inj _ _ H5 H5'),
    (hex_digits_inj _ _ H6 H6'), (hex_digits_inj _ _ H7 H7'),
    (hex_digits_inj _ _ H8 H8'), (hex_digits_inj _ _ H9 H9'),
    (hex_digits_inj _ _ H10 H10'), (hex_digits_inj _ _ H11 H11'),
    (hex_digits_inj _ _ H12 H12'), (hex_digits_inj _ _ H13 H13'),
    (hex_digits_inj _ _ H14 H14'), (hex_digits_inj _ _ H15 H15').
Qed.

Lemma header_slice_length (raw : list byte) :
  18 < length raw -> length (py_slice raw 2 18) = 16.
Proof.
  intros Hlen. unfold py_slice. rewrite length_take, length_drop. lia.
Qed.

(** X13. Two messages with a registry header get the same cache key only
    when bytes 2-17 of their headers are the same: the stringified UUID
    determines the sixteen identifier bytes, so different schema versions
    never share a cache entry. *)
Theorem header_schema_id_injective (raw1 raw2 : list byte) :
  18 < length raw1 -> 18 < length raw2 ->
  header_schema_id raw1 = header_schema_id raw2 ->
  py_slice raw1 2 18 = py_slice raw2 2 18.
Proof.
  intros H1 H2 Heq.
  apply uuid_str_inj; auto using header_slice_length.
Qed.

Lemma header_schema_id_injective_witness :
  py_slice (sample_header x00 ++ [x04]) 2 18
  = py_slice (sample_header x05 ++ deflated_02) 2 18.
Proof.
  apply (header_schema_id_injective (sample_header x00 ++ [x04])
           (sample_header x05 ++ deflated_02)).
  - simpl. lia.
  - simpl. lia.
  - reflexivity.
Defined.


(** ** The handler: every record is counted once *)

Lemma keeps_wbind {A B X} (f : world -> X) (m : W A) (k : A -> W B) :
  keeps f m -> (forall a, keeps f (k a)) -> keeps f (wbind m k).
Proof.
  intros Hm Hk w. unfold wbind. specialize (Hm w).
  destruct (m w) as [[a | e] w1]; simpl in *; [| done].
  by rewrite Hk.
Qed.

Lemma wbind_return {A B} (m : W A) (k : A -> W B) (w : world) (a : A)
    (w1 : world) :
  m w = (Return a, w1) -> wbind m k w = k a w1.
Proof. intros Hm. unfold wbind. by rewrite Hm. Qed.

Lemma wbind_fst_return {A B} (m : W A) (k : A -> W B) (w : world) (a : A) :
  fst (m w) = Return a -> wbind m k w = k a (snd (m w)).
Proof. unfold wbind. destruct (m w) as [r w1]. simpl. by intros ->. Qed.


Lemma keeps_wtry {A X} (f : world -> X) (body : W A) (handler : exn -> W A) :
  keeps f body -> (forall e, keeps f (handler e)) -> keeps f (wtry body handler).
Proof.
  intros Hm Hk w. unfold wtry. specialize (Hm w).
  destruct (body w) as [[a | e] w1]; simpl in *; [done |].
  by rewrite Hk.
Qed.

Lemma keeps_run_core {A X} (f : world -> X) (m : M A) :
  (forall st w,
      f (World st (http_posts w) (batch_items w) (table_puts w) (clock_reads w)
               (console w) (processed_count w) (error_count w)
               (all_event_payloads w) (saved_ids w)) = f w) ->
  keeps f (run_core m).
Proof.
  intros Hf w. unfold run_core. destruct (m (mem w)) as [r st']. apply Hf.
Qed.

Ltac keeps_tac :=
  repeat
    first
      [ solve [intros ?; reflexivity]
      | apply keeps_run_core; solve [intros ? ?; reflexivity]
      | apply keeps_wbind; [| intros ?]
      | apply keeps_wtry; [| intros ?]
      | match goal with
        | |- keeps _ (match ?x with _ => _ end) => destruct x
        end ].

Section HandlerFacts.

Context (sv : services).

Lemma publish_keeps_processed (channel : string) (event_data : pyval) :
  keeps processed_count (publish_to_appsync sv channel event_data).
Proof. unfold publish_to_appsync. keeps_tac. Qed.

Lemma publish_keeps_errors (channel : string) (event_data : pyval) :
  keeps error_count (publish_to_appsync sv channel event_data).
Proof. unfold publish_to_appsync. keeps_tac. Qed.

Lemma publish_keeps_payloads (channel : string) (event_data : pyval) :
  keeps all_event_payloads (publish_to_appsync sv channel event_data).
Proof. unfold publish_to_appsync. keeps_tac. Qed.

Lemma counts_when_done_after {A B} (m : W A) (k : A -> W B) :
  keeps processed_count m -> keeps error_count m -> keeps all_event_payloads m ->
  (forall a, counts_when_done (k a)) -> counts_when_done (wbind m k).
Proof.
  intros Hp He Hq Hk w. unfold wbind.
  specialize (Hp w). specialize (He w). specialize (Hq w).
  destruct (m w) as [[a | e] w1]; simpl in *.
  - specialize (Hk a w1). by rewrite Hp, He, Hq in Hk.
  - split; [by left | done].
Qed.

(** Publishing and counting leave the queue alone and count the record
    unless publishing raises. *)
Lemma publish_then_count (channel : string) (event_payload : pyval) (w : world) :
  all_event_payloads
    (snd ((let+ published := publish_to_appsync sv channel event_payload in
           if published then count_processed else count_error) w))
  = all_event_payloads w
  /\ match fst ((let+ published := publish_to_appsync sv channel event_payload in
                 if published then count_processed else count_error) w) with
     | Return _ =>
         processed_count
           (snd ((let+ published := publish_to_appsync sv channel event_payload in
                  if published then count_processed else count_error) w))
         + error_count
             (snd ((let+ published := publish_to_appsync sv channel event_payload in
                    if published then count_processed else count_error) w))
         = S (processed_count w + error_count w)
     | Raise _ =>
         processed_count
           (snd ((let+ published := publish_to_appsync sv channel event_payload in
                  if published then count_processed else count_error) w))
         = processed_count w
         /\ error_count
              (snd ((let+ published := publish_to_appsync sv channel event_payload in
                     if published then count_processed else count_error) w))
            = error_count w
     end.
Proof.
  pose proof (publish_keeps_processed channel event_payload w) as Hp.
  pose proof (publish_keeps_errors channel event_payload w) as He.
  pose proof (publish_keeps_payloads channel event_payload w) as Hq.
  unfold wbind.
  destruct (publish_to_appsync sv channel event_payload w) as [[b | e] w2];
    simpl in *.
  - destruct b; simpl; rewrite Hp, He, Hq; split; [done | lia | done | lia].
  - by rewrite Hp, He, Hq.
Qed.

(** The end of the [try] body: queue the payload, publish, count. *)
Lemma counts_when_done_publish (channel : string) (event_payload : pyval) :
  counts_when_done
    (append_payload event_payload ;;+
     let+ published := publish_to_appsync sv channel event_payload in
     if published then count_processed else count_error).
Proof.
  intros w.
  rewrite (wbind_return (append_payload event_payload) _ w tt _ eq_refl).
  match goal with
  | |- context [wbind _ _ ?w1] =>
      destruct (publish_then_count channel event_payload w1) as [Hq Hc]
  end.
  cbn [all_event_payloads processed_count error_count] in Hq, Hc.
  split; [right; eexists; exact Hq | exact Hc].
Qed.

Lemma process_record_counts (topic : string) (record : list (string * pyval))
    (w : world) :
  fst (process_record sv topic record w) = Return tt
  /\ processed_count (snd (process_record sv topic record w))
     + error_count (snd (process_record sv topic record w))
     = S (processed_count w + error_count w)
  /\ (all_event_payloads (snd (process_record sv topic record w))
      = all_event_payloads w
      \/ exists p,
          all_event_payloads (snd (process_record sv topic record w))
          = all_event_payloads w ++ [p]).
Proof.
  unfold process_record, wtry.
  match goal with
  | |- context [match ?body w with _ => _ end] =>
      assert (Hbody : counts_when_done body)
  end.
  { apply counts_when_done_after; [keeps_tac .. |]. intros raw_value.
    apply counts_when_done_after; [keeps_tac .. |]. intros message_data.
    apply counts_when_done_after; [keeps_tac .. |]. intros key.
    apply counts_when_done_after; [keeps_tac .. |]. intros now.
    apply counts_when_done_publish. }
  specialize (Hbody w).
  match goal with
  | |- context [match ?body w with _ => _ end] => destruct (body w) as [[[] | e] w1]
  end; simpl in *.
  - destruct Hbody as [Hq Hc]. by repeat split.
  - destruct Hbody as [Hq [Hp He]]. rewrite Hp, He. repeat split; [lia | done].
Qed.

Lemma process_records_counts (topic : string)
    (records : list (list (string * pyval))) (w : world) :
  fst (process_records sv topic records w) = Return tt
  /\ processed_count (snd (process_records sv topic records w))
     + error_count (snd (process_records sv topic records w))
     = processed_count w + error_count w + length records
  /\ length (all_event_payloads (snd (process_records sv topic records w)))
     <= length (all_event_payloads w) + length records.
Proof.
  revert w. induction records as [| record rest IH]; intros w.
  - simpl. repeat split; lia.
  - cbn [process_records]. unfold wbind.
    destruct (process_record_counts topic record w) as (Hr & Hc & Hq).
    destruct (process_record sv topic record w) as [r w1]. simpl in *. subst r.
    destruct (IH w1) as (Hr' & Hc' & Hq').
    split; [done |]. split; [simpl; lia |].
    destruct Hq as [Hq | [p Hq]]; rewrite Hq in Hq';
      rewrite ?length_app in Hq'; simpl in *; lia.
Qed.

Lemma process_partitions_counts
    (partitions : list (string * list (list (string * pyval)))) (w : world) :
  fst (process_partitions sv partitions w) = Return tt
  /\ processed_count (snd (process_partitions sv partitions w))
     + error_count (snd (process_partitions sv partitions w))
     = processed_count w + error_count w + total_records partitions
  /\ length (all_event_payloads (snd (process_partitions sv partitions w)))
     <= length (all_event_payloads w) + total_records partitions.
Proof.
  revert w. induction partitions as [| [key records] rest IH]; intros w.
  - unfold total_records. simpl. repeat split; lia.
  - cbn [process_partitions]. unfold wbind.
    destruct (process_records_counts (rsplit_dash_first key) records w)
      as (Hr & Hc & Hq).
    destruct (process_records sv (rsplit_dash_first key) records w) as [r w1].
    simpl in *. subst r.
    destruct (IH w1) as (Hr' & Hc' & Hq').
    unfold total_records in *. simpl.
    split; [done |]. split; lia.
Qed.

End HandlerFacts.

Section BatchFacts.

Context (sv : services).

Lemma batch_item_keeps {X} (f : world -> X) (timestamp ttl : Z) (p : pyval) :
  (forall w, f (snd (read_clock sv w)) = f w) ->
  keeps f (batch_item sv timestamp ttl p).
Proof.
  intros Hclock. unfold batch_item.
  repeat (apply keeps_wbind; [first [exact Hclock | intros ?; reflexivity] |];
          intros ?).
  intros ?; reflexivity.
Qed.

Lemma batch_loop_keeps {X} (f : world -> X) (table : dynamo_table)
    (timestamp ttl : Z) (payloads : list pyval) :
  (forall w, f (snd (read_clock sv w)) = f w) ->
  (forall it w, f (snd (batch_put table it w)) = f w) ->
  (forall id w, f (snd (append_saved_id id w)) = f w) ->
  keeps f (batch_loop sv table timestamp ttl payloads).
Proof.
  intros Hclock Hput Happend.
  induction payloads as [| p rest IH]; [intros ?; reflexivity |].
  cbn [batch_loop].
  apply keeps_wbind; [by apply batch_item_keeps |]. intros built.
  apply keeps_wbind; [intros ?; apply Hput |]. intros _.
  apply keeps_wbind; [intros ?; apply Happend |]. intros _. exact IH.
Qed.

(** The loop appends an identifier for each payload it gets through, in
    order, and nothing else. *)
Lemma batch_loop_saved_ids (table : dynamo_table) (timestamp ttl : Z)
    (payloads : list pyval) (w : world) :
  exists ids,
    saved_ids (snd (batch_loop sv table timestamp ttl payloads w))
    = saved_ids w ++ ids
    /\ length ids <= length payloads.
Proof.
  revert w. induction payloads as [| p rest IH]; intros w.
  - exists []. simpl. by rewrite app_nil_r.
  - cbn [batch_loop]. unfold wbind at 1.
    pose proof (batch_item_keeps saved_ids timestamp ttl p
                  (fun _ => eq_refl) w) as Hitem.
    destruct (batch_item sv timestamp ttl p w) as [[built | e] w1]; simpl in *.
    2:{ exists []. rewrite app_nil_r. split; [done | simpl; lia]. }
    unfold wbind at 1. unfold batch_put at 1.
    destruct (batch_put_item table (batch_items w1) built.2).
    2:{ exists []. simpl. rewrite app_nil_r. split; [done | simpl; lia]. }
    rewrite (wbind_return (append_saved_id built.1) _ _ tt _ eq_refl).
    match goal with
    | |- context [batch_loop sv table timestamp ttl rest ?w2] =>
        destruct (IH w2) as (ids & Hids & Hlen)
    end.
    exists (built.1 :: ids). rewrite Hids. simpl. rewrite Hitem.
    rewrite <- app_assoc. split; [done | lia].
Qed.

(** The [try] around the batch writer always ends normally and leaves the
    world of the loop but for the line it prints. *)
Lemma batch_try_run {X} (f : world -> X) (table : dynamo_table) (body : W unit)
    (w : world) :
  (forall l w, f (snd (hprint l w)) = f w) ->
  fst (wtry (with_batch_writer table body ;;+
             (fun w => hprint (LogBatchSaved (length (saved_ids w))) w))
            (fun e => hprint (LogBatchError e)) w) = Return tt
  /\ f (snd (wtry (with_batch_writer table body ;;+
                   (fun w => hprint (LogBatchSaved (length (saved_ids w))) w))
                  (fun e => hprint (LogBatchError e)) w))
     = f (snd (body w)).
Proof.
  intros Hprint. unfold wtry, wbind, with_batch_writer.
  destruct (body w) as [[[] | e] w1]; simpl.
  - destruct (batch_exit table (batch_items w1)) as [[] | e']; simpl;
      split; try done; apply Hprint.
  - destruct (batch_exit table (batch_items w1)) as [[] | e']; simpl;
      split; try done; apply Hprint.
Qed.

Lemma batch_save_returns (payloads : list pyval) (w : world) :
  exists ids,
    fst (batch_save_to_dynamodb sv payloads w) = Return ids
    /\ length ids <= length payloads
    /\ processed_count (snd (batch_save_to_dynamodb sv payloads w))
       = processed_count w
    /\ error_count (snd (batch_save_to_dynamodb sv payloads w)) = error_count w
    /\ all_event_payloads (snd (batch_save_to_dynamodb sv payloads w))
       = all_event_payloads w.
Proof.
  unfold batch_save_to_dynamodb.
  destruct (events_table sv) as [table |]; [| exists []; simpl; repeat split; lia].
  destruct payloads as [| p rest]; [exists []; simpl; repeat split; lia |].
  match goal with
  | |- context [wbind ?reset _ w] =>
      rewrite (wbind_return reset _ w tt _ eq_refl)
  end.
  rewrite (wbind_return (read_clock sv) _ _ _ _ eq_refl).
  match goal with
  | |- context [wbind (wtry (wbind (with_batch_writer _ ?loop) _) _) _ ?w3] =>
      destruct (batch_try_run saved_ids table loop w3 (fun _ _ => eq_refl))
        as [Hret Hids];
      destruct (batch_try_run processed_count table loop w3 (fun _ _ => eq_refl))
        as [_ Hp];
      destruct (batch_try_run error_count table loop w3 (fun _ _ => eq_refl))
        as [_ He];
      destruct (batch_try_run all_event_payloads table loop w3
                  (fun _ _ => eq_refl)) as [_ Hq];
      rewrite (wbind_fst_return _ _ w3 tt Hret)
  end.
  cbn [fst snd].
  rewrite Hids, Hp, He, Hq.
  rewrite (batch_loop_keeps processed_count table _ _ (p :: rest)
             (fun _ => eq_refl) (fun _ _ => eq_refl) (fun _ _ => eq_refl)).
  rewrite (batch_loop_keeps error_count table _ _ (p :: rest)
             (fun _ => eq_refl) (fun _ _ => eq_refl) (fun _ _ => eq_refl)).
  rewrite (batch_loop_keeps all_event_payloads table _ _ (p :: rest)
             (fun _ => eq_refl) (fun _ _ => eq_refl) (fun _ _ => eq_refl)).
  match goal with
  | |- context [batch_loop sv table ?ts ?ttl (p :: rest) ?w3] =>
      destruct (batch_loop_saved_ids table ts ttl (p :: rest) w3)
        as (ids & Hloop & Hlen)
  end.
  eexists. split; [reflexivity |]. rewrite Hloop. by repeat split.
Qed.

End BatchFacts.

(** X14. On an event of the shape MSK delivers, whose [records] entry maps
    partition keys to lists of record mappings, [lambda_handler] returns
    status 200 and accounts for every record exactly once: the processed and
    error counts add up to the number of records.  No more payloads are
    queued than there are records, and no more are reported saved than were
    queued.  (Line 445 stands outside every [try]: an event of another shape
    is not covered.) *)
Theorem lambda_handler_counts_every_record
    (sv : services) (partitions : list (string * list (list (string * pyval))))
    (w : world) :
  exists processed saved errors w',
    lambda_handler sv partitions w
    = (Return (handler_result processed saved errors), w')
    /\ processed + errors = total_records partitions
    /\ saved <= length (all_event_payloads w')
    /\ length (all_event_payloads w') <= total_records partitions.
Proof.
  unfold lambda_handler.
  rewrite (wbind_return (hprint _) _ w tt _ eq_refl).
  match goal with
  | |- context [wbind ?reset _ ?w1] =>
      rewrite (wbind_return reset _ w1 tt _ eq_refl)
  end.
  set (w2 := World _ _ _ _ _ _ _ _ _ _).
  destruct (process_partitions_counts sv partitions w2) as (Hr & Hc & Hq).
  unfold wbind at 1.
  destruct (process_partitions sv partitions w2) as [r w3].
  simpl in Hr, Hc, Hq. subst r.
  unfold wbind at 1.
  destruct (all_event_payloads w3) as [| p rest] eqn:Hpayloads.
  - unfold wbind, hprint, wret. simpl. do 4 eexists.
    split; [reflexivity |]. simpl. rewrite Hpayloads. simpl.
    repeat split; lia.
  - destruct (batch_save_returns sv (p :: rest) w3)
      as (ids & Hids & Hlen & Hp & He & Hall).
    unfold wbind at 1.
    destruct (batch_save_to_dynamodb sv (p :: rest) w3) as [r w4].
    simpl in Hids, Hp, He, Hall. subst r.
    unfold wbind, hprint, wret. simpl. do 4 eexists.
    split; [reflexivity |]. simpl.
    rewrite Hp, He, Hall, Hpayloads.
    simpl in *. repeat split; lia.
Qed.

(** ** The topic of a partition key *)

Lemma append_cons (c : ascii) (s t : string) :
  String c s +:+ t = String c (s +:+ t).
Proof. reflexivity. Qed.

Lemma before_last_dash_none (s : string) :
  (forall n, String.get n s <> Some "-"%char) -> before_last_dash s = None.
Proof.
  induction s as [| c s IH]; intros Hno; [done |].
  cbn [before_last_dash]. rewrite IH.
  - destruct (Ascii.eqb c "-") eqn:Hc; [| done].
    apply Ascii.eqb_eq in Hc. subst c. by destruct (Hno 0).
  - intros n. apply (Hno (S n)).
Qed.

Lemma before_last_dash_append (topic suffix : string) :
  before_last_dash suffix = None ->
  before_last_dash (topic +:+ "-" +:+ suffix) = Some topic.
Proof.
  intros Hsuffix. induction topic as [| c topic IH].
  - change (EmptyString +:+ "-" +:+ suffix) with (String "-" suffix).
    cbn [before_last_dash]. by rewrite Hsuffix.
  - rewrite append_cons. cbn [before_last_dash]. by rewrite IH.
Qed.

(** X15. The handler recovers the topic from a key of the form
    [<topic>-<partition>]: whatever dashes the topic itself contains, the
    part before the last dash is taken, provided the partition suffix has no
    dash; a key without any dash is taken whole. *)
Theorem topic_of_partition_key (topic suffix : string) :
  (forall n, String.get n suffix <> Some "-"%char) ->
  rsplit_dash_first (topic +:+ "-" +:+ suffix) = topic
  /\ rsplit_dash_first suffix = suffix.
Proof.
  intros Hno. unfold rsplit_dash_first.
  rewrite (before_last_dash_append topic suffix (before_last_dash_none _ Hno)).
  by rewrite (before_last_dash_none _ Hno).
Qed.

Lemma topic_of_partition_key_witness :
  rsplit_dash_first ("taxi-trips" +:+ "-" +:+ "12") = "taxi-trips"
  /\ rsplit_dash_first "12" = "12".
Proof.
  apply (topic_of_partition_key "taxi-trips" "12").
  intros [| [| [| n]]]; simpl; congruence.
Defined.

(** ** Records that are dropped, queued, published *)

Section Records.

Context (sv : services).

Lemma run_core_run {A} (m : M A) (w : world) (r : outcome A) (st' : state) :
  m (mem w) = (r, st') ->
  run_core m w
  = (r, World st' (http_posts w) (batch_items w) (table_puts w) (clock_reads w)
              (console w) (processed_count w) (error_count w)
              (all_event_payloads w) (saved_ids w)).
Proof. intros Hm. unfold run_core. by rewrite Hm. Qed.

(** Without an endpoint nothing is posted and the answer is [False]. *)
Lemma publish_unconfigured (channel : string) (event_data : pyval) (w : world) :
  APPSYNC_HTTP_ENDPOINT sv = None
  \/ APPSYNC_HTTP_ENDPOINT sv = Some EmptyString ->
  publish_to_appsync sv channel event_data w
  = (Return false, snd (hprint LogNoEndpoint w)).
Proof. intros [Hcfg | Hcfg]; unfold publish_to_appsync; by rewrite Hcfg. Qed.

Lemma process_record_unconfigured (topic : string)
    (record : list (string * pyval)) :
  APPSYNC_HTTP_ENDPOINT sv = None
  \/ APPSYNC_HTTP_ENDPOINT sv = Some EmptyString ->
  keeps (fun w => (processed_count w, http_posts w))
        (process_record sv topic record).
Proof.
  intros Hcfg. unfold process_record.
  apply keeps_wtry; [| intros e; keeps_tac].
  apply keeps_wbind; [keeps_tac |]. intros raw_value.
  apply keeps_wbind; [keeps_tac |]. intros message_data.
  apply keeps_wbind; [keeps_tac |]. intros key.
  apply keeps_wbind; [keeps_tac |]. intros now.
  intros w.
  rewrite (wbind_return (append_payload _) _ w tt _ eq_refl).
  by rewrite (wbind_return (publish_to_appsync sv _ _) _ _ false _
                (publish_unconfigured _ _ _ Hcfg)).
Qed.

Lemma process_partitions_unconfigured
    (partitions : list (string * list (list (string * pyval)))) :
  APPSYNC_HTTP_ENDPOINT sv = None
  \/ APPSYNC_HTTP_ENDPOINT sv = Some EmptyString ->
  keeps (fun w => (processed_count w, http_posts w))
        (process_partitions sv partitions).
Proof.
  intros Hcfg. induction partitions as [| [key records] rest IH];
    [intros ?; reflexivity |].
  cbn [process_partitions]. apply keeps_wbind; [| intros _; exact IH].
  induction records as [| record records IHr]; [intros ?; reflexivity |].
  cbn [process_records].
  apply keeps_wbind; [by apply process_record_unconfigured | intros _; exact IHr].
Qed.

End Records.

(** X16. A record on whose value [base64.b64decode] raises, or whose key
    is present and cannot be decoded ([b64decode] raises on it, or its bytes
    are not UTF-8), is dropped: it is counted as an error, and it is neither
    queued for the table nor published, whatever its value decodes to.  The
    decoding of line 461 is the lenient one, which skips characters outside
    the alphabet: it raises when the input ends in the middle of a group of
    four characters, on a string that is not ASCII and on a value that is
    neither text nor bytes, not on every text that is not base64. *)
Theorem undecodable_record_is_dropped
    (sv : services) (topic : string) (record : list (string * pyval))
    (w : world) :
  (exists e, b64decode (items_get record "value" (VStr EmptyString)) = Raise e)
  \/ (exists e, decode_key record = Raise e) ->
  fst (process_record sv topic record w) = Return tt
  /\ all_event_payloads (snd (process_record sv topic record w))
     = all_event_payloads w
  /\ http_posts (snd (process_record sv topic record w)) = http_posts w
  /\ processed_count (snd (process_record sv topic record w)) = processed_count w
  /\ error_count (snd (process_record sv topic record w)) = S (error_count w).
Proof.
  intros Hbad.
  assert (Hrun : exists w',
    process_record sv topic record w = (Return tt, w')
    /\ all_event_payloads w' = all_event_payloads w
    /\ http_posts w' = http_posts w
    /\ processed_count w' = processed_count w
    /\ error_count w' = S (error_count w)).
  { unfold process_record, wtry.
    unfold wbind at 1. unfold wlift at 1.
    destruct (b64decode (items_get record "value" (VStr EmptyString)))
      as [raw_value | e0] eqn:Hvalue; [| by eexists].
    destruct Hbad as [[e He] | [e He]]; [discriminate |].
    unfold wbind at 1.
    destruct (deserialize_message (core sv) raw_value topic (mem w))
      as [r st'] eqn:Hcore.
    rewrite (run_core_run _ w r st' Hcore).
    destruct r as [message_data | e1]; [| by eexists].
    unfold wbind at 1. unfold wlift at 1. rewrite He. by eexists. }
  destruct Hrun as (w' & -> & Hrest). by split.
Qed.

Lemma undecodable_record_is_dropped_witness :
  fst (process_record sv_demo "taxi-trips" (msk_record 7 VNone (VStr "a"))
         (fresh cold)) = Return tt
  /\ all_event_payloads
       (snd (process_record sv_demo "taxi-trips" (msk_record 7 VNone (VStr "a"))
               (fresh cold))) = []
  /\ http_posts
       (snd (process_record sv_demo "taxi-trips" (msk_record 7 VNone (VStr "a"))
               (fresh cold))) = []
  /\ processed_count
       (snd (process_record sv_demo "taxi-trips" (msk_record 7 VNone (VStr "a"))
               (fresh cold))) = 0
  /\ error_count
       (snd (process_record sv_demo "taxi-trips" (msk_record 7 VNone (VStr "a"))
               (fresh cold))) = 1.
Proof.
  apply (undecodable_record_is_dropped sv_demo "taxi-trips"
           (msk_record 7 VNone (VStr "a")) (fresh cold)).
  left. eexists. reflexivity.
Defined.

(** Four characters outside the alphabet are skipped, not refused: the value
    decodes to no bytes at all. *)
Example lenient_decoding_skips_foreign_characters :
  b64decode (VStr "!!!!") = Return [].
Proof. reflexivity. Qed.

(** X17. A record that decodes is queued for the table before publishing is
    attempted: once its value is base64, the decode pipeline has returned
    and its key is readable, the payload (topic, partition, offset,
    timestamp, key, decoded data, processing time) is in the queue whatever
    the publisher does afterwards, answer [False] or raise. *)
Theorem decoded_record_is_queued
    (sv : services) (topic : string) (record : list (string * pyval))
    (w : world) (raw : list byte) (data : pyval) (st' : state) (key : pyval) :
  b64decode (items_get record "value" (VStr EmptyString)) = Return raw ->
  deserialize_message (core sv) raw topic (mem w) = (Return data, st') ->
  decode_key record = Return key ->
  all_event_payloads (snd (process_record sv topic record w))
  = all_event_payloads w
    ++ [make_event_payload topic record key data
          (snd (utcnow sv (clock_reads w)))].
Proof.
  intros Hvalue Hcore Hkey. unfold process_record, wtry.
  rewrite (wbind_return (wlift _) _ w raw w (f_equal (fun o => (o, w)) Hvalue)).
  rewrite (wbind_return (run_core _) _ w data _ (run_core_run _ w _ _ Hcore)).
  rewrite (wbind_return (wlift _) _ _ key _ (f_equal (fun o => (o, _)) Hkey)).
  rewrite (wbind_return (read_clock sv) _ _ _ _ eq_refl).
  rewrite (wbind_return (append_payload _) _ _ tt _ eq_refl).
  match goal with
  | |- context [wbind (publish_to_appsync sv ?ch ?ev) ?k ?w1] =>
      destruct (publish_then_count sv ch ev w1) as [Hq _];
      destruct (wbind (publish_to_appsync sv ch ev) k w1) as [[[] | e] w2]
  end; simpl in *; by rewrite Hq.
Qed.

Lemma decoded_record_is_queued_witness :
  all_event_payloads
    (snd (process_record sv_no_endpoint "taxi-trips"
            (msk_record 5 VNone (VStr (b64 (list_byte_of_string text_a1))))
            (fresh cold)))
  = [] ++ [make_event_payload "taxi-trips"
             (msk_record 5 VNone (VStr (b64 (list_byte_of_string text_a1))))
             VNone (VDict [("a", VInt 1)]) "2023-11-14T22:13:20"].
Proof.
  apply (decoded_record_is_queued sv_no_endpoint "taxi-trips"
           (msk_record 5 VNone (VStr (b64 (list_byte_of_string text_a1))))
           (fresh cold) (list_byte_of_string text_a1) (VDict [("a", VInt 1)])
           cold VNone); reflexivity.
Defined.

(** ** The handler without an endpoint, and the batch that stops *)

Section Batch.

Context (sv : services).

Lemma batch_save_keeps {X} (f : world -> X) (payloads : list pyval) :
  (forall w, f (snd (read_clock sv w)) = f w) ->
  (forall table it w, f (snd (batch_put table it w)) = f w) ->
  (forall id w, f (snd (append_saved_id id w)) = f w) ->
  (forall l w, f (snd (hprint l w)) = f w) ->
  (forall w,
      f (World (mem w) (http_posts w) (batch_items w) (table_puts w)
               (clock_reads w) (console w) (processed_count w) (error_count w)
               (all_event_payloads w) []) = f w) ->
  keeps f (batch_save_to_dynamodb sv payloads).
Proof.
  intros Hclock Hput Happend Hprint Hreset. unfold batch_save_to_dynamodb.
  destruct (events_table sv) as [table |]; [| intros ?; reflexivity].
  destruct payloads as [| p rest]; [intros ?; reflexivity |].
  apply keeps_wbind; [intros w; apply Hreset |]. intros _.
  apply keeps_wbind; [exact Hclock |]. intros now.
  apply keeps_wbind; [| intros _ ?; reflexivity].
  intros w.
  match goal with
  | |- context [with_batch_writer _ ?loop] =>
      destruct (batch_try_run f table loop w Hprint) as [_ ->]
  end.
  by apply batch_loop_keeps.
Qed.




End Batch.

(** X18. Without an AppSync endpoint the handler posts nothing and reports
    every record as an error: the result is status 200 with zero processed
    and as many errors as there are records. *)
Theorem unconfigured_endpoint_counts_errors
    (sv : services) (partitions : list (string * list (list (string * pyval))))
    (w : world) :
  APPSYNC_HTTP_ENDPOINT sv = None
  \/ APPSYNC_HTTP_ENDPOINT sv = Some EmptyString ->
  exists saved w',
    lambda_handler sv partitions w
    = (Return (handler_result 0 saved (total_records partitions)), w')
    /\ http_posts w' = http_posts w.
Proof.
  intros Hcfg. unfold lambda_handler.
  rewrite (wbind_return (hprint _) _ w tt _ eq_refl).
  match goal with
  | |- context [wbind ?reset _ ?w1] =>
      rewrite (wbind_return reset _ w1 tt _ eq_refl)
  end.
  match goal with
  | |- context [wbind (process_partitions sv partitions) _ ?w2] =>
      destruct (process_partitions_counts sv partitions w2) as (Hr & Hc & _);
      pose proof (process_partitions_unconfigured sv partitions Hcfg w2) as Hk;
      rewrite (wbind_fst_return _ _ w2 tt Hr);
      destruct (process_partitions sv partitions w2) as [r w3]
  end.
  cbn [fst snd processed_count error_count http_posts] in Hc, Hk |- *.
  injection Hk as Hp Hposts.
  assert (He : error_count w3 = total_records partitions) by lia.
  unfold wbind at 1.
  destruct (all_event_payloads w3) as [| p rest] eqn:Hpayloads.
  - unfold wbind, hprint, wret. simpl. rewrite Hp, He. by do 2 eexists.
  - destruct (batch_save_returns sv (p :: rest) w3)
      as (ids & Hids & _ & Hp' & He' & _).
    pose proof (batch_save_keeps sv http_posts (p :: rest)
                  (fun _ => eq_refl) (fun _ _ _ => eq_refl) (fun _ _ => eq_refl)
                  (fun _ _ => eq_refl) (fun _ => eq_refl) w3) as Hposts'.
    unfold wbind at 1.
    destruct (batch_save_to_dynamodb sv (p :: rest) w3) as [r' w4].
    simpl in Hids, Hp', He', Hposts'. subst r'.
    unfold wbind, hprint, wret. simpl.
    rewrite Hp', He', Hp, He. do 2 eexists. split; [reflexivity |]. simpl.
    congruence.
Qed.

Lemma unconfigured_endpoint_counts_errors_witness :
  exists saved w',
    lambda_handler sv_no_endpoint sample_event (fresh cold)
    = (Return (handler_result 0 saved (total_records sample_event)), w')
    /\ http_posts w' = http_posts (fresh cold).
Proof.
  apply (unconfigured_endpoint_counts_errors sv_no_endpoint sample_event
           (fresh cold)).
  left. reflexivity.
Defined.


